(** * roket2d: telemetry parsing, particle engine and derived visual state

    A shallow embedding of [src/rocket_visualizer/particles.py],
    [log_data.py] and [rocket.py].

    Numbers.  Python [float] values are modelled by the real numbers [R] of
    the Standard Library (exact arithmetic, no rounding, no [inf]/[nan]);
    Python [int] values by [Z].  The concrete inputs used in examples are
    dyadic, so IEEE-754 double arithmetic is exact on them as well.

    Effects.  Exceptions are explicit ([result]); the global [random] module
    is a state threaded through the emitters ([RandomSource]); the clock and
    the file system are inputs of a poll. *)

From Stdlib Require Import Floats.
From Stdlib Require Import Reals Lra Lia ZArith List String Ascii Bool QArith Qreals.
From Stdlib Require Import Zfloor Sorted.
Import ListNotations.

#[local] Open Scope R_scope.

(** ** Exceptions *)

Inductive exn : Type :=
| ValueError
| IndexError
| ZeroDivisionError
| OverflowError
| OSError.

Inductive result (A : Type) : Type :=
| Ok (a : A)
| Raise (e : exn).

Arguments Ok {A} a.
Arguments Raise {A} e.

Definition rbind {A B : Type} (r : result A) (k : A -> result B) : result B :=
  match r with
  | Ok a => k a
  | Raise e => Raise e
  end.

Declare Scope result_scope.
Delimit Scope result_scope with result.
Notation "x <- c ;; k" := (rbind c (fun x => k))
  (at level 61, c at next level, right associativity) : result_scope.

(** ** Python builtins on numbers *)

(** [int(x)] on a float: truncation toward zero. *)
Definition py_int (x : R) : Z :=
  if Rle_dec 0 x then Zfloor x else Zceil x.

(** [a / b] on floats: raises [ZeroDivisionError] on a zero divisor. *)
Definition py_truediv (a b : R) : result R :=
  if Req_dec_T b 0 then Raise ZeroDivisionError else Ok (a / b).


(** [math.radians] *)
Definition radians (deg : R) : R := deg * (PI / 180).

(** ** The [random] module as a threaded state *)

Class RandomSource (G : Type) : Type := {
  (** [random.random()], a sample of the unit interval *)
  rs_random : G -> R * G;
  (** a sample of [0 .. n-1], as [randrange] draws it *)
  rs_randbelow : Z -> G -> Z * G
}.

(** Computations that draw random numbers and may raise. *)
Definition M (G A : Type) : Type := G -> result (A * G).

Definition ret {G A : Type} (a : A) : M G A := fun g => Ok (a, g).

Definition bind {G A B : Type} (m : M G A) (k : A -> M G B) : M G B :=
  fun g => match m g with
           | Ok (a, g') => k a g'
           | Raise e => Raise e
           end.

Definition lift {G A : Type} (r : result A) : M G A :=
  fun g => match r with
           | Ok a => Ok (a, g)
           | Raise e => Raise e
           end.

Declare Scope rand_scope.
Delimit Scope rand_scope with rand.
Notation "x <~ c ;; k" := (bind c (fun x => k))
  (at level 61, c at next level, right associativity) : rand_scope.

(** [random.uniform(a, b)] is [a + (b - a) * random()]. *)
Definition uniform {G : Type} `{RandomSource G} (a b : R) : M G R :=
  fun g => let (u, g') := rs_random g in Ok (a + (b - a) * u, g').

(** [random.randint(a, b)] is [randrange(a, b + 1)]. *)
Definition randint {G : Type} `{RandomSource G} (a b : Z) : M G Z :=
  fun g => let (k, g') := rs_randbelow (b - a + 1) g in Ok ((a + k)%Z, g').

(** [for _ in range(n): body], the loop state passed along. *)
Fixpoint for_range {G S : Type} (n : nat) (body : S -> M G S) (s : S) : M G S :=
  match n with
  | O => ret s
  | Datatypes.S n' => (s' <~ body s ;; for_range n' body s')%rand
  end.

(** ** particles.py: class Particle *)

Module Particle.

Record t : Type := mk {
  x : R;
  y : R;
  vx : R;
  vy : R;
  life : R;
  max_life : R;
  color : Z * Z * Z * Z;
  size : R
}.

(** [Particle.__init__]: [max_life] is the initial [life]; the radius is
    drawn from [random.uniform(1, 3)]. *)
Definition init {G : Type} `{RandomSource G}
    (x y vx vy life : R) (color : Z * Z * Z * Z) : M G t :=
  (sz <~ uniform 1 3 ;;
   ret (mk x y vx vy life life color sz))%rand.

(** [Particle.update] *)
Definition update (p : t) (dt : R) : result t :=
  let x' := x p + vx p * dt in
  let y' := y p + vy p * dt in
  let life' := life p - dt in
  (ratio <- py_truediv life' (max_life p) ;;
   let alpha := py_int (255 * ratio) in
   let '(c0, c1, c2, _) := color p in
   Ok (mk x' y' (vx p) (vy p) life' (max_life p)
          (c0, c1, c2, Z.max 0 alpha) (size p)))%result.

(** [Particle.is_alive] *)
Definition is_alive (p : t) : bool :=
  if Rlt_dec 0 (life p) then true else false.

Definition alpha (p : t) : Z := snd (color p).

End Particle.

(** [for particle in ps: particle.update(dt)]: the particles are updated in
    place, in order; the first exception ends the loop. *)
Fixpoint update_each (ps : list Particle.t) (dt : R) : result (list Particle.t) :=
  match ps with
  | [] => Ok []
  | p :: rest =>
      (p' <- Particle.update p dt ;;
       rest' <- update_each rest dt ;;
       Ok (p' :: rest'))%result
  end.

(** ** particles.py: class ParticleSystem *)

Module ParticleSystem.

Record t : Type := mk {
  window_width : Z;
  window_height : Z;
  enabled : bool;
  exhaust_particles : list Particle.t;
  dust_particles : list Particle.t
}.

(** [ParticleSystem.__init__]; [enabled] defaults to [False] in the source. *)
Definition init (window_width window_height : Z) (enabled : bool) : t :=
  mk window_width window_height enabled [] [].

Definition set_exhaust (s : t) (ps : list Particle.t) : t :=
  mk (window_width s) (window_height s) (enabled s) ps (dust_particles s).

Definition set_dust (s : t) (ps : list Particle.t) : t :=
  mk (window_width s) (window_height s) (enabled s) (exhaust_particles s) ps.

Definition magnitude (ax ay az : R) : R := sqrt (ax ^ 2 + ay ^ 2 + az ^ 2).

Section Emitters.
Context {G : Type} `{RandomSource G}.

(** One iteration of the exhaust loop: build a particle and append it. *)
Definition exhaust_body (rocket_x rocket_y pitch : R)
    (ps : list Particle.t) : M G (list Particle.t) :=
  let angle_rad := radians pitch in
  let exhaust_offset := 40 in
  let x := rocket_x - sin angle_rad * exhaust_offset in
  let y := rocket_y - cos angle_rad * exhaust_offset in
  (u1 <~ uniform (-50) 50 ;;
   let vx := u1 - sin angle_rad * 100 in
   u2 <~ uniform (-50) 50 ;;
   let vy := u2 - cos angle_rad * 100 in
   green <~ randint 100 200 ;;
   let color := (255, green, 0, 255)%Z in
   life <~ uniform (5 / 10) (15 / 10) ;;
   particle <~ Particle.init x y vx vy life color ;;
   ret (ps ++ [particle]))%rand.

(** [ParticleSystem.create_exhaust_particles] *)
Definition create_exhaust_particles (s : t) (rocket_x rocket_y : R)
    (acceleration_x acceleration_y acceleration_z pitch : R) : M G t :=
  if negb (enabled s) then ret s
  else
    let accel_magnitude :=
      magnitude acceleration_x acceleration_y acceleration_z in
    let num_particles := py_int (accel_magnitude * 2) in
    (ps <~ for_range (Z.to_nat num_particles)
             (exhaust_body rocket_x rocket_y pitch) (exhaust_particles s) ;;
     ret (set_exhaust s ps))%rand.

(** The distance [t] from the window centre to the window edge along the
    nose direction, lines 115-126 of the source. *)
Definition edge_distance (window_width window_height : Z)
    (nose_dx nose_dy : R) : result R :=
  let center_x := (window_width / 2)%Z in
  let center_y := (window_height / 2)%Z in
  if Rlt_dec (Rabs nose_dy) (Rabs nose_dx) then
    if Rlt_dec 0 nose_dx
    then py_truediv (IZR (window_width - center_x)) nose_dx
    else py_truediv (IZR (- center_x)) nose_dx
  else
    if Rlt_dec 0 nose_dy
    then py_truediv (IZR (window_height - center_y)) nose_dy
    else py_truediv (IZR (- center_y)) nose_dy.

(** One iteration of the dust loop. *)
Definition dust_body (window_width window_height : Z)
    (speed_magnitude angle_rad : R)
    (ps : list Particle.t) : M G (list Particle.t) :=
  let nose_dx := sin angle_rad in
  let nose_dy := cos angle_rad in
  let center_x := (window_width / 2)%Z in
  let center_y := (window_height / 2)%Z in
  (t <~ lift (edge_distance window_width window_height nose_dx nose_dy) ;;
   let edge_x := IZR center_x + nose_dx * t in
   let edge_y := IZR center_y + nose_dy * t in
   let perpendicular_dx := - nose_dy in
   let perpendicular_dy := nose_dx in
   random_offset <~ uniform (-100) 100 ;;
   let start_x := edge_x + perpendicular_dx * random_offset in
   let start_y := edge_y + perpendicular_dy * random_offset in
   let start_x := Rmax 0 (Rmin (IZR window_width) start_x) in
   let start_y := Rmax 0 (Rmin (IZR window_height) start_y) in
   let particle_speed := speed_magnitude * 50 in
   let vx := - nose_dx * particle_speed in
   let vy := - nose_dy * particle_speed in
   j1 <~ uniform (-20) 20 ;;
   let vx := vx + j1 in
   j2 <~ uniform (-20) 20 ;;
   let vy := vy + j2 in
   gray <~ randint 180 255 ;;
   a <~ randint 100 200 ;;
   let color := (gray, gray, gray, a) in
   life <~ uniform 2 4 ;;
   particle <~ Particle.init start_x start_y vx vy life color ;;
   ret (ps ++ [particle]))%rand.

(** [ParticleSystem.create_dust_particles] *)
Definition create_dust_particles (s : t)
    (acceleration_x acceleration_y acceleration_z pitch : R) : M G t :=
  if negb (enabled s) then ret s
  else
    let speed_magnitude :=
      magnitude acceleration_x acceleration_y acceleration_z in
    let base_rate := 3 in
    let speed_multiplier := Rmax (1 / 10) (speed_magnitude * (5 / 10)) in
    let num_particles := py_int (base_rate * speed_multiplier) in
    let angle_rad := radians pitch in
    (ps <~ for_range (Z.to_nat num_particles)
             (dust_body (window_width s) (window_height s)
                        speed_magnitude angle_rad)
             (dust_particles s) ;;
     ret (set_dust s ps))%rand.

End Emitters.

(** [ParticleSystem.update]: both lists are first filtered by [is_alive],
    then every particle of [exhaust + dust] is updated in place. *)
Definition update (s : t) (dt : R) : result t :=
  let exhaust := filter Particle.is_alive (exhaust_particles s) in
  let dust := filter Particle.is_alive (dust_particles s) in
  (all <- update_each (exhaust ++ dust) dt ;;
   Ok (mk (window_width s) (window_height s) (enabled s)
          (firstn (List.length exhaust) all) (skipn (List.length exhaust) all)))%result.

(** The two populations handed to the renderer by [draw]. *)
Definition snapshot (s : t) : list Particle.t * list Particle.t :=
  (exhaust_particles s, dust_particles s).

End ParticleSystem.

(** ** rocket.py: class BackgroundRenderer *)

Module BackgroundRenderer.

Record t : Type := mk { bg_color : Z * Z * Z }.

(** [BackgroundRenderer.__init__]: default sky blue. *)
Definition init : t := mk (135, 206, 235)%Z.

(** [BackgroundRenderer.update_color] *)
Definition update_color (self : t) (altitude : R) : t :=
  let altitude := Rmax 0 (Rmin 5000 altitude) in
  let ratio := altitude / 5000 in
  let light_blue := (135, 206, 235) in
  let dark_blue := (25, 25, 112) in
  let '(l0, l1, l2) := light_blue in
  let '(d0, d1, d2) := dark_blue in
  let r := py_int (l0 * (1 - ratio) + d0 * ratio) in
  let g := py_int (l1 * (1 - ratio) + d1 * ratio) in
  let b := py_int (l2 * (1 - ratio) + d2 * ratio) in
  mk (r, g, b).

(** [BackgroundRenderer.get_color] *)
Definition get_color (self : t) : Z * Z * Z := bg_color self.

End BackgroundRenderer.


(** ** Python [str] operations

    A [str] is a [string] whose characters are code points below 256. *)

#[local] Open Scope string_scope.

(** [str.isspace] on one character: tab, line feed, vertical tab, form feed,
    carriage return, the separators 0x1c-0x1f, space, NEL and no-break
    space. *)
Definition is_space (c : ascii) : bool :=
  let n := nat_of_ascii c in
  ((9 <=? n) && (n <=? 13) || (28 <=? n) && (n <=? 32)
   || (n =? 133) || (n =? 160))%nat.

Fixpoint lstrip (s : string) : string :=
  match s with
  | EmptyString => EmptyString
  | String c s' => if is_space c then lstrip s' else s
  end.

Fixpoint rstrip (s : string) : string :=
  match s with
  | EmptyString => EmptyString
  | String c s' =>
      match rstrip s' with
      | EmptyString => if is_space c then EmptyString else String c EmptyString
      | r => String c r
      end
  end.

(** [s.strip()] *)
Definition strip (s : string) : string := rstrip (lstrip s).

(** [s.split()] with no separator: the maximal runs of non-space
    characters, in order.  [tok] is the run read so far. *)
Fixpoint split_from (tok : string) (s : string) : list string :=
  match s with
  | EmptyString =>
      match tok with EmptyString => [] | _ => [tok] end
  | String c s' =>
      if is_space c then
        match tok with
        | EmptyString => split_from EmptyString s'
        | _ => tok :: split_from EmptyString s'
        end
      else split_from (tok ++ String c EmptyString) s'
  end.

Definition split (s : string) : list string := split_from EmptyString s.

(** ** log_data.py: class LogData *)

Module LogData.

Record t (F : Type) : Type := mk {
  timestamp : string;
  altitude : F;
  pressure : F;
  temperature : F;
  gps_altitude : F;
  latitude : F;
  longitude : F;
  gyro_x : F;
  gyro_y : F;
  gyro_z : F;
  acceleration_x : F;
  acceleration_y : F;
  acceleration_z : F;
  pitch : F;
  yaw : F;
  roll : F;
  battery : F;
  state : Z
}.

Arguments mk {F}.
Arguments timestamp {F}.
Arguments altitude {F}.
Arguments pressure {F}.
Arguments temperature {F}.
Arguments gps_altitude {F}.
Arguments latitude {F}.
Arguments longitude {F}.
Arguments gyro_x {F}.
Arguments gyro_y {F}.
Arguments gyro_z {F}.
Arguments acceleration_x {F}.
Arguments acceleration_y {F}.
Arguments acceleration_z {F}.
Arguments pitch {F}.
Arguments yaw {F}.
Arguments roll {F}.
Arguments battery {F}.
Arguments state {F}.

(** [LogData.__init__]: [zero] is the float [0.0]. *)
Definition init {F : Type} (zero : F) : t F :=
  mk "" zero zero zero zero zero zero zero zero zero
     zero zero zero zero zero zero zero 0%Z.

End LogData.

(** ** log_data.py: class TestLogGenerator *)

Module TestLogGenerator.

Record t : Type := mk {
  time_start : R;
  altitude : R;
  pitch : R
}.

(** [TestLogGenerator.__init__]; [now] is the reading of [time.time()]. *)
Definition init (now : R) : t := mk now 0 0.

(** The values [generate_line] formats into its line. *)
Record fields : Type := mk_fields {
  f_current_time : R;
  f_altitude : R;
  f_pressure : R;
  f_temperature : R;
  f_accel_x : R;
  f_accel_y : R;
  f_accel_z : R;
  f_pitch : R
}.

Section Generate.
Context {G : Type} `{RandomSource G}.

(** [format_line] stands for [time.strftime] and the f-string of the
    last statement, which turn the computed values into text. *)
Variable format_line : fields -> string.

(** The numeric part of [generate_line]; [current_time] is the reading
    of [time.time()]. *)
Definition generate (self : t) (current_time : R) : M G (fields * t) :=
  let elapsed := current_time - time_start self in
  let altitude' := altitude self + 10 in
  let pitch' := sin (elapsed * (5 / 10)) * 15 in
  let pressure := 101325 / 100 - altitude' * (12 / 100) in
  let temperature := 15 - altitude' * (65 / 10000) in
  (u <~ uniform 5 15 ;;
   let accel_z := 981 / 100 + u in
   accel_x <~ uniform (- (5 / 10)) (5 / 10) ;;
   accel_y <~ uniform (- (5 / 10)) (5 / 10) ;;
   ret (mk_fields current_time altitude' pressure temperature
                  accel_x accel_y accel_z pitch',
        mk (time_start self) altitude' pitch'))%rand.

(** [TestLogGenerator.generate_line] *)
Definition generate_line (self : t) (current_time : R) : M G (string * t) :=
  (r <~ generate self current_time ;;
   ret (format_line (fst r), snd r))%rand.

End Generate.

End TestLogGenerator.

(** ** log_data.py: class LogReader *)

(** What one poll observes of the world outside the program. *)
Inductive file_view : Type :=
| Absent                        (**r [os.path.exists] is false *)
| Unreadable (e : exn)          (**r [open] or [readlines] raises [e] *)
| Lines (lines : list string).  (**r [readlines()] returns [lines] *)

Record poll_env : Type := mk_env {
  env_time : R;         (**r the reading of [time.time()] *)
  env_file : file_view
}.

Module LogReader.

Record t (F : Type) : Type := mk {
  log_file_path : option string;
  test_generator : option TestLogGenerator.t;
  current_data : LogData.t F
}.

Arguments mk {F}.
Arguments log_file_path {F}.
Arguments test_generator {F}.
Arguments current_data {F}.

(** Truth value of an [Optional[str]]: [None] and [""] are false. *)
Definition truthy (p : option string) : bool :=
  match p with
  | Some (String _ _) => true
  | _ => false
  end.

(** [parts[i]] *)
Definition item (parts : list string) (i : nat) : result string :=
  match nth_error parts i with
  | Some s => Ok s
  | None => Raise IndexError
  end.

(** [try: body except (ValueError, IndexError): handler] *)
Definition try_except_value_index {A : Type} (body : result A) (handler : result A)
    : result A :=
  match body with
  | Raise ValueError | Raise IndexError => handler
  | r => r
  end.

(** [try: body except Exception: handler] *)
Definition try_except_exception {A : Type} (body : result A) (handler : A)
    : result A :=
  match body with
  | Raise _ => Ok handler
  | r => r
  end.

Section Reader.
Variable F : Type.
(** the float [0.0] *)
Variable zero : F.
(** [float(s)] and [int(s)] on a [str]: [None] when they raise
    [ValueError], the only exception they raise on a [str]. *)
Variable str_to_float : string -> option F.
Variable str_to_int : string -> option Z.

Definition float (s : string) : result F :=
  match str_to_float s with
  | Some f => Ok f
  | None => Raise ValueError
  end.

Definition int (s : string) : result Z :=
  match str_to_int s with
  | Some n => Ok n
  | None => Raise ValueError
  end.

(** [LogReader.__init__]; [now] is read by [TestLogGenerator()] when it
    is built. *)
Definition init (log_file_path : option string) (now : R) : t F :=
  mk log_file_path
     (if negb (truthy log_file_path) then Some (TestLogGenerator.init now)
      else None)
     (LogData.init zero).

(** The body of the [try] block of [parse_log_line]. *)
Definition parse_fields (line : string) : result (option (LogData.t F)) :=
  let parts := split (strip line) in
  if (List.length parts <? 18)%nat then Ok None
  else
    (p0 <- item parts 0 ;;
     p1 <- item parts 1 ;; altitude <- float p1 ;;
     p2 <- item parts 2 ;; pressure <- float p2 ;;
     p3 <- item parts 3 ;; temperature <- float p3 ;;
     p4 <- item parts 4 ;; gps_altitude <- float p4 ;;
     p5 <- item parts 5 ;; latitude <- float p5 ;;
     p6 <- item parts 6 ;; longitude <- float p6 ;;
     p7 <- item parts 7 ;; gyro_x <- float p7 ;;
     p8 <- item parts 8 ;; gyro_y <- float p8 ;;
     p9 <- item parts 9 ;; gyro_z <- float p9 ;;
     p10 <- item parts 10 ;; acceleration_x <- float p10 ;;
     p11 <- item parts 11 ;; acceleration_y <- float p11 ;;
     p12 <- item parts 12 ;; acceleration_z <- float p12 ;;
     p13 <- item parts 13 ;; pitch <- float p13 ;;
     p14 <- item parts 14 ;; yaw <- float p14 ;;
     p15 <- item parts 15 ;; roll <- float p15 ;;
     p16 <- item parts 16 ;; battery <- float p16 ;;
     p17 <- item parts 17 ;; state <- int p17 ;;
     Ok (Some (LogData.mk p0 altitude pressure temperature gps_altitude
                 latitude longitude gyro_x gyro_y gyro_z
                 acceleration_x acceleration_y acceleration_z
                 pitch yaw roll battery state)))%result.

(** [LogReader.parse_log_line]: [None] is the "no sample" sentinel. *)
Definition parse_log_line (line : string) : result (option (LogData.t F)) :=
  try_except_value_index (parse_fields line) (Ok None).

(** [if data: self.current_data = data] *)
Definition store (self : t F) (data : option (LogData.t F)) : t F :=
  match data with
  | Some d => mk (log_file_path self) (test_generator self) d
  | None => self
  end.

Section Poll.
Context {G : Type} `{RandomSource G}.
Variable format_line : TestLogGenerator.fields -> string.

(** The [with open(...)] block of [read_latest_data]. *)
Definition read_file (self : t F) (v : file_view) : result (t F) :=
  match v with
  | Absent => Ok self
  | Unreadable e => Raise e
  | Lines lines =>
      match lines with
      | [] => Ok self
      | _ :: _ =>
          let last_line := strip (last lines EmptyString) in
          (data <- parse_log_line last_line ;;
           Ok (store self data))%result
      end
  end.

(** [LogReader.read_latest_data]: the sample returned and the reader
    after the call. *)
Definition read_latest_data (self : t F) (env : poll_env)
    : M G (LogData.t F * t F) :=
  match test_generator self with
  | Some gen =>
      (r <~ TestLogGenerator.generate_line format_line gen (env_time env) ;;
       let self1 := mk (log_file_path self) (Some (snd r)) (current_data self) in
       data <~ lift (parse_log_line (fst r)) ;;
       let self2 := store self1 data in
       ret (current_data self2, self2))%rand
  | None =>
      if truthy (log_file_path self)
         && match env_file env with Absent => false | _ => true end
      then
        (self' <~ lift (try_except_exception
                          (read_file self (env_file env)) self) ;;
         ret (current_data self', self'))%rand
      else ret (current_data self, self)
  end.

End Poll.
End Reader.

End LogReader.

(** * Predicates, runs and example inputs used by the statements *)

#[local] Open Scope list_scope.
#[local] Open Scope R_scope.

(** The particle of the counterexample to the rounding formula: one
    second of life, of which an eighth is left after the tick. *)
Definition fading_particle : Particle.t :=
  Particle.mk 0 0 0 0 1 1 (255, 150, 0, 255)%Z 2.







(** The altitude after [max(0, min(5000, altitude))]. *)
Definition clamp_altitude (altitude : R) : R := Rmax 0 (Rmin 5000 altitude).


(** A deterministic random source for examples: the state counts the draws. *)
#[export] Instance counter_source : RandomSource nat := {
  rs_random n := (INR (n mod 4) / 4, S n);
  rs_randbelow k n := ((Z.of_nat n mod k)%Z, S n)
}.

(** [N] polls of the generator, one per clock reading of [times]: the
    values generated, in order. *)
Fixpoint generate_polls {G : Type} `{RandomSource G}
    (times : list R) (gen : TestLogGenerator.t) : M G (list TestLogGenerator.fields) :=
  match times with
  | [] => ret []
  | now :: rest =>
      (r <~ TestLogGenerator.generate gen now ;;
       fs <~ generate_polls rest (snd r) ;;
       ret (fst r :: fs))%rand
  end.

(** A string that is empty or starts with a non-space character. *)
Definition starts_clean (s : string) : Prop :=
  match s with
  | EmptyString => True
  | String c _ => is_space c = false
  end.

Section LineShapes.
Variable F : Type.
Variable str_to_float : string -> option F.
Variable str_to_int : string -> option Z.

(** The whitespace-separated tokens [parse_log_line] works on. *)
Definition tokens (line : string) : list string := split (strip line).

(** Tokens 2 to 17 of a line, the float columns. *)
Definition float_tokens (line : string) : list string :=
  firstn 16 (skipn 1 (tokens line)).

(** At least 18 tokens, tokens 2-17 valid floats, token 18 a valid integer. *)
Definition well_formed (line : string) : Prop :=
  (18 <= List.length (tokens line))%nat /\
  Forall (fun t => str_to_float t <> None) (float_tokens line) /\
  str_to_int (nth 17 (tokens line) EmptyString) <> None.

(** Fewer than 18 tokens, or one of tokens 2-17 is no float, or token 18 is
    no integer. *)
Definition malformed (line : string) : Prop :=
  (List.length (tokens line) < 18)%nat \/
  Exists (fun t => str_to_float t = None) (float_tokens line) \/
  str_to_int (nth 17 (tokens line) EmptyString) = None.

(** The sixteen float fields of a sample, in the column order of the log. *)
Definition float_fields (d : LogData.t F) : list F :=
  [LogData.altitude d; LogData.pressure d; LogData.temperature d;
   LogData.gps_altitude d; LogData.latitude d; LogData.longitude d;
   LogData.gyro_x d; LogData.gyro_y d; LogData.gyro_z d;
   LogData.acceleration_x d; LogData.acceleration_y d; LogData.acceleration_z d;
   LogData.pitch d; LogData.yaw d; LogData.roll d; LogData.battery d].

End LineShapes.

Arguments float_fields {F} d.

(** ** Plain decimal literals *)

(** An instance of [float(s)] and [int(s)] for the examples: an optional
    sign, digits and, for floats, at most one point.  These are the
    literals the log format uses; the value of a float literal is the exact
    rational it denotes. *)

Definition digit_value (c : ascii) : option Z :=
  let n := nat_of_ascii c in
  if ((48 <=? n) && (n <=? 57))%nat then Some (Z.of_nat (n - 48)) else None.

Fixpoint digits_from (acc : Z) (s : string) : option Z :=
  match s with
  | EmptyString => Some acc
  | String c s' =>
      match digit_value c with
      | Some d => digits_from (10 * acc + d) s'
      | None => None
      end
  end.

(** The text before the first point and, if there is a point, after it. *)
Fixpoint split_point (s : string) : string * option string :=
  match s with
  | EmptyString => (EmptyString, None)
  | String c s' =>
      if Ascii.eqb c "."%char then (EmptyString, Some s')
      else let (a, b) := split_point s' in (String c a, b)
  end.

Definition sign_and_body (s : string) : bool * string :=
  match s with
  | String c s' =>
      if Ascii.eqb c "-"%char then (true, s')
      else if Ascii.eqb c "+"%char then (false, s')
      else (false, s)
  | EmptyString => (false, s)
  end.

Definition signed (neg : bool) (n : Z) : Z := if neg then (- n)%Z else n.

Definition decimal_int (s : string) : option Z :=
  let (neg, body) := sign_and_body s in
  match body with
  | EmptyString => None
  | _ => option_map (signed neg) (digits_from 0 body)
  end.

Definition decimal_float (s : string) : option Q :=
  let (neg, body) := sign_and_body s in
  let (ip, point) := split_point body in
  let fp := match point with Some f => f | None => EmptyString end in
  match (ip ++ fp)%string with
  | EmptyString => None
  | ds =>
      option_map
        (fun n => Qred (signed neg n # Z.to_pos (10 ^ Z.of_nat (String.length fp))))
        (digits_from 0 ds)
  end.

(** The well-formed line of the specification's example. *)
Definition example_line : string :=
  "12:00:00.000 100.0 1001.0 14.35 0 0 0 0 0 0 0.1 0.1 15.0 5.0 0 0 4.1 1".

(** The same line with the pitch column unreadable. *)
Definition broken_line : string :=
  "12:00:00.000 100.0 1001.0 14.35 0 0 0 0 0 0 0.1 0.1 15.0 five 0 0 4.1 1".

Section PollShapes.
Variable F : Type.
Variable str_to_float : string -> option F.
Variable str_to_int : string -> option Z.

(** What a file-backed poll can observe without obtaining a sample: no
    file, a failing read, an empty file, or a malformed last line. *)
Inductive failed_read : file_view -> Prop :=
| failed_absent : failed_read Absent
| failed_io (e : exn) : failed_read (Unreadable e)
| failed_empty : failed_read (Lines [])
| failed_malformed (lines : list string) (line : string) :
    malformed F str_to_float str_to_int line ->
    failed_read (Lines (lines ++ [line])).

Context {G : Type} `{RandomSource G}.
Variable format_line : TestLogGenerator.fields -> string.

(** A run of polls, one per observation of [envs]: the samples returned,
    in order, and the reader left. *)
Fixpoint poll_all (envs : list poll_env) (rd : LogReader.t F)
    : M G (list (LogData.t F) * LogReader.t F) :=
  match envs with
  | [] => ret ([], rd)
  | env :: rest =>
      (r <~ LogReader.read_latest_data F str_to_float str_to_int format_line rd env ;;
       rs <~ poll_all rest (snd r) ;;
       ret (fst r :: fst rs, snd rs))%rand
  end.

End PollShapes.

(** A reader on a log file, before any poll. *)
Definition fresh_reader : LogReader.t Q :=
  LogReader.init Q 0%Q (Some "flight.log"%string) 0.

(** The formatter of the examples; no example polls the generator. *)
Definition no_format (f : TestLogGenerator.fields) : string := EmptyString.

(** * Further code: renderers, the application frame, the monolithic dust emitter *)

(** What the [random] module guarantees of its draws: [random()] lies in
    [0, 1) and a draw below [n] lies in [0, n). *)
Class LawfulRandomSource (G : Type) `{RandomSource G} : Prop := {
  random_unit : forall g : G, 0 <= fst (rs_random g) < 1;
  randbelow_range : forall (n : Z) (g : G),
    (0 < n)%Z -> (0 <= fst (rs_randbelow n g) < n)%Z
}.

(** [random.choice(seq)] is [seq[randbelow(len(seq))]]. *)
Definition choice {G A : Type} `{RandomSource G} (l : list A) : M G A :=
  fun g =>
    let (k, g') := rs_randbelow (Z.of_nat (List.length l)) g in
    match nth_error l (Z.to_nat k) with
    | Some a => Ok (a, g')
    | None => Raise IndexError
    end.

(** [BackgroundRenderer.apply]: the four arguments handed to
    [glClearColor]. *)
Definition clear_color (self : BackgroundRenderer.t) : R * R * R * R :=
  let '(r, g, b) := BackgroundRenderer.bg_color self in
  (IZR r / 255, IZR g / 255, IZR b / 255, 1).

(** ** rocket.py: class RocketRenderer *)

Module RocketRenderer.

(** The attributes of a pyglet sprite the code sets or relies on. *)
Record sprite : Type := mk_sprite {
  sprite_x : Z;
  sprite_y : Z;
  rotation : R;
  scale : R
}.

Record t : Type := mk {
  window_width : Z;
  window_height : Z;
  rocket_sprite : option sprite;
  meter_sprite : option sprite
}.

(** [RocketRenderer.__init__] with [load_assets]: [loaded] tells whether
    both images could be read; when one fails both sprites are [None]. *)
Definition init (window_width window_height : Z) (loaded : bool) : t :=
  if loaded then
    mk window_width window_height
       (Some (mk_sprite (window_width / 2) (window_height / 2) 0 1))
       (Some (mk_sprite (window_width / 2) (window_height / 2) 0 (8 / 10)))
  else mk window_width window_height None None.

(** [RocketRenderer.update_rotation] *)
Definition update_rotation (self : t) (pitch : R) : t :=
  match rocket_sprite self with
  | Some sp =>
      mk (window_width self) (window_height self)
         (Some (mk_sprite (sprite_x sp) (sprite_y sp) (- pitch) (scale sp)))
         (meter_sprite self)
  | None => self
  end.

End RocketRenderer.

(** ** app.py: class RocketVisualizerApp *)

(** What the pyglet clock delivers to the application: a frame after [dt]
    seconds, or a log tick with what the poll observes. *)
Inductive event : Type :=
| Frame (dt : R)
| Tick (env : poll_env).

Module RocketVisualizerApp.

Record t : Type := mk {
  width : Z;
  height : Z;
  log_reader : LogReader.t R;
  particle_system : ParticleSystem.t;
  rocket_renderer : RocketRenderer.t;
  background_renderer : BackgroundRenderer.t;
  current_data : LogData.t R
}.

Section App.
Variable str_to_float : string -> option R.
Variable str_to_int : string -> option Z.
Context {G : Type} `{RandomSource G}.
Variable format_line : TestLogGenerator.fields -> string.

(** [RocketVisualizerApp.__init__]: the particle system is built as
    [ParticleSystem(width, height)], so with [enabled] at its default
    [False]. *)
Definition init (log_file_path : option string) (width height : Z)
    (assets_loaded : bool) (now : R) : t :=
  mk width height
     (LogReader.init R 0 log_file_path now)
     (ParticleSystem.init width height false)
     (RocketRenderer.init width height assets_loaded)
     BackgroundRenderer.init
     (LogData.init 0).

(** [RocketVisualizerApp.read_log_data] *)
Definition read_log_data (self : t) (env : poll_env) : M G t :=
  (r <~ LogReader.read_latest_data R str_to_float str_to_int format_line
          (log_reader self) env ;;
   ret (mk (width self) (height self) (snd r) (particle_system self)
           (rocket_renderer self) (background_renderer self) (fst r)))%rand.

(** [RocketVisualizerApp.update] *)
Definition update (self : t) (dt : R) : M G t :=
  let data := current_data self in
  let background :=
    BackgroundRenderer.update_color (background_renderer self)
      (LogData.altitude data) in
  let rocket :=
    RocketRenderer.update_rotation (rocket_renderer self) (LogData.pitch data) in
  (ps1 <~ ParticleSystem.create_exhaust_particles (particle_system self)
            (IZR (width self / 2)) (IZR (height self / 2))
            (LogData.acceleration_x data) (LogData.acceleration_y data)
            (LogData.acceleration_z data) (LogData.pitch data) ;;
   ps2 <~ ParticleSystem.create_dust_particles ps1
            (LogData.acceleration_x data) (LogData.acceleration_y data)
            (LogData.acceleration_z data) (LogData.pitch data) ;;
   ps3 <~ lift (ParticleSystem.update ps2 dt) ;;
   ret (mk (width self) (height self) (log_reader self) ps3
           rocket background data))%rand.

(** The scheduled callbacks, run in the order the clock fires them. *)
Fixpoint run (events : list event) (self : t) : M G t :=
  match events with
  | [] => ret self
  | Frame dt :: rest => (self' <~ update self dt ;; run rest self')%rand
  | Tick env :: rest => (self' <~ read_log_data self env ;; run rest self')%rand
  end.

End App.

End RocketVisualizerApp.

(** ** rocket_visualizer.py: the dust emitter of class RocketVisualizer *)

Module RocketVisualizer.

Definition WINDOW_WIDTH : Z := 600.
Definition WINDOW_HEIGHT : Z := 600.

Section Dust.
Context {G : Type} `{RandomSource G}.

(** The random position on the window border, lines 257-262. *)
Definition border_position : M G (R * R) :=
  (side <~ choice [true; false] ;;
   if side : bool then
     (x <~ choice [0; IZR WINDOW_WIDTH] ;;
      y <~ uniform 0 (IZR WINDOW_HEIGHT) ;;
      ret (x, y))
   else
     (x <~ uniform 0 (IZR WINDOW_WIDTH) ;;
      y <~ choice [0; IZR WINDOW_HEIGHT] ;;
      ret (x, y)))%rand.

(** The velocity towards the rocket, lines 268-276. *)
Definition towards_rocket (x y speed : R) : result (R * R) :=
  let rocket_x := IZR (WINDOW_WIDTH / 2) in
  let rocket_y := IZR (WINDOW_HEIGHT / 2) in
  let dx := rocket_x - x in
  let dy := rocket_y - y in
  let distance := sqrt (dx ^ 2 + dy ^ 2) in
  if Rlt_dec 0 distance then
    (ux <- py_truediv dx distance ;;
     uy <- py_truediv dy distance ;;
     Ok (ux * speed * 2, uy * speed * 2))%result
  else Ok (0, 0).

(** One iteration of the loop of [create_dust_particles]. *)
Definition dust_body (speed : R) (ps : list Particle.t) : M G (list Particle.t) :=
  (xy <~ border_position ;;
   v <~ lift (towards_rocket (fst xy) (snd xy) speed) ;;
   gray <~ randint 150 255 ;;
   let color := (gray, gray, gray, 128%Z) in
   life <~ uniform 1 2 ;;
   particle <~ Particle.init (fst xy) (snd xy) (fst v) (snd v) life color ;;
   ret (ps ++ [particle]))%rand.

(** [RocketVisualizer.create_dust_particles]: [acceleration_z] is read
    from the current sample, the particles are appended to
    [dust_particles]. *)
Definition create_dust_particles (acceleration_z : R)
    (dust_particles : list Particle.t) : M G (list Particle.t) :=
  let speed := Rabs acceleration_z * 10 in
  let num_particles := py_int (speed * (5 / 10)) in
  for_range (Z.to_nat num_particles) (dust_body speed) dust_particles.

End Dust.

End RocketVisualizer.

(** [file_backed rd]: the reader polls a log file, not the generator. *)
Definition file_backed {F : Type} (rd : LogReader.t F) : bool :=
  match LogReader.test_generator rd with
  | None => true
  | Some _ => false
  end.



(** ** What the emitters build *)





(** A string with no whitespace character. *)
Fixpoint has_no_space (s : string) : bool :=
  match s with
  | EmptyString => true
  | String c s' => negb (is_space c) && has_no_space s'
  end.


(** * Properties *)

#[local] Open Scope list_scope.
#[local] Open Scope R_scope.

(** ** Truncation and rounding *)

Lemma py_int_nonneg (x : R) : 0 <= x -> py_int x = Zfloor x.
Proof.
  intros Hx. unfold py_int. destruct (Rle_dec 0 x) as [_ | Hn]; [reflexivity | contradiction].
Qed.

Lemma py_int_neg (x : R) : x < 0 -> py_int x = Zceil x.
Proof.
  intros Hx. unfold py_int. destruct (Rle_dec 0 x) as [H0 | _]; [lra | reflexivity].
Qed.

Lemma py_int_IZR (z : Z) : py_int (IZR z) = z.
Proof.
  unfold py_int. destruct (Rle_dec 0 (IZR z)).
  - apply ZfloorZ.
  - apply Zceil_eq. lra.
Qed.


Lemma py_int_sign_nonneg (x : R) : 0 <= x -> (0 <= py_int x)%Z.
Proof.
  intros Hx. rewrite py_int_nonneg by assumption.
  apply Zfloor_lub. simpl. exact Hx.
Qed.

Lemma py_int_sign_nonpos (x : R) : x <= 0 -> (py_int x <= 0)%Z.
Proof.
  intros Hx. destruct (Req_dec_T x 0) as [-> | Hne].
  - rewrite (py_int_IZR 0). lia.
  - rewrite py_int_neg by lra.
    replace 0%Z with (Zceil (IZR 0)) by (apply Zceil_eq; lra).
    apply Zceil_le. simpl. exact Hx.
Qed.



(** ** Particle.update *)

Lemma py_truediv_ok (a b : R) : b <> 0 -> py_truediv a b = Ok (a / b).
Proof.
  intros Hb. unfold py_truediv.
  destruct (Req_dec_T b 0) as [E | _]; [contradiction | reflexivity].
Qed.

Lemma py_truediv_zero (a : R) : py_truediv a 0 = Raise ZeroDivisionError.
Proof.
  unfold py_truediv. destruct (Req_dec_T 0 0) as [_ | E]; [reflexivity | now elim E].
Qed.


Lemma is_alive_false (p : Particle.t) :
  Particle.is_alive p = false <-> Particle.life p <= 0.
Proof.
  unfold Particle.is_alive. destruct (Rlt_dec 0 (Particle.life p)); split; intros; try congruence; lra.
Qed.

(** What [Particle.update] returns when it does not raise. *)
Lemma Particle_update_ok (p : Particle.t) (dt : R) :
  Particle.max_life p <> 0 ->
  Particle.update p dt =
  Ok (Particle.mk (Particle.x p + Particle.vx p * dt)
                  (Particle.y p + Particle.vy p * dt)
                  (Particle.vx p) (Particle.vy p)
                  (Particle.life p - dt) (Particle.max_life p)
                  (fst (fst (fst (Particle.color p))),
                   snd (fst (fst (Particle.color p))),
                   snd (fst (Particle.color p)),
                   Z.max 0 (py_int (255 * ((Particle.life p - dt) / Particle.max_life p))))
                  (Particle.size p)).
Proof.
  intros Hm. unfold Particle.update.
  rewrite py_truediv_ok by assumption. simpl.
  destruct (Particle.color p) as [[[c0 c1] c2] c3]. reflexivity.
Qed.

Lemma Particle_update_inv (p q : Particle.t) (dt : R) :
  Particle.update p dt = Ok q ->
  Particle.max_life p <> 0 /\
  Particle.life q = Particle.life p - dt /\
  Particle.max_life q = Particle.max_life p.
Proof.
  intros Hu. destruct (Req_dec_T (Particle.max_life p) 0) as [E | Hne].
  - unfold Particle.update in Hu. rewrite E, py_truediv_zero in Hu. discriminate.
  - rewrite Particle_update_ok in Hu by assumption.
    injection Hu as <-. simpl. auto.
Qed.




(** ** ParticleSystem.update *)
















(** ** BackgroundRenderer.update_color *)

Lemma clamp_altitude_range (altitude : R) : 0 <= clamp_altitude altitude <= 5000.
Proof.
  unfold clamp_altitude, Rmax, Rmin.
  destruct (Rle_dec 5000 altitude); destruct (Rle_dec 0 _); lra.
Qed.










(** ** The emitters *)

Section EmitterFacts.
Context {G : Type} `{RandomSource G}.









End EmitterFacts.




(** C9: on an engine whose [enabled] flag is off the exhaust emitter and
    the dust emitter return at once: the engine (both populations and the
    settings) and the random state are left as they were. *)
Theorem C9_disabled_emitters_change_nothing {G : Type} `{RandomSource G}
    (s : ParticleSystem.t) (rocket_x rocket_y ax ay az pitch : R) (g : G) :
  ParticleSystem.enabled s = false ->
  ParticleSystem.create_exhaust_particles s rocket_x rocket_y ax ay az pitch g = Ok (s, g) /\
  ParticleSystem.create_dust_particles s ax ay az pitch g = Ok (s, g).
Proof.
  intros He.
  unfold ParticleSystem.create_exhaust_particles, ParticleSystem.create_dust_particles.
  rewrite He. split; reflexivity.
Qed.

(** C9 at a disabled 600x600 engine. *)
Lemma C9_disabled_emitters_change_nothing_witness :
  ParticleSystem.create_exhaust_particles
    (ParticleSystem.init 600 600 false) 300 300 0 0 20 5 0%nat
  = Ok (ParticleSystem.init 600 600 false, 0%nat) /\
  ParticleSystem.create_dust_particles
    (ParticleSystem.init 600 600 false) 0 0 20 5 0%nat
  = Ok (ParticleSystem.init 600 600 false, 0%nat).
Proof.
  apply (C9_disabled_emitters_change_nothing
           (ParticleSystem.init 600 600 false) 300 300 0 0 20 5 0%nat).
  reflexivity.
Defined.

(** ** TestLogGenerator.generate_line *)

Section GeneratorFacts.
Context {G : Type} `{RandomSource G}.

Lemma generate_returns (gen : TestLogGenerator.t) (now : R) (g : G) :
  exists f g',
    TestLogGenerator.generate gen now g =
      Ok ((f, TestLogGenerator.mk (TestLogGenerator.time_start gen)
                (TestLogGenerator.altitude gen + 10)
                (sin ((now - TestLogGenerator.time_start gen) * (5 / 10)) * 15)), g') /\
    TestLogGenerator.f_altitude f = TestLogGenerator.altitude gen + 10 /\
    TestLogGenerator.f_pitch f =
      sin ((now - TestLogGenerator.time_start gen) * (5 / 10)) * 15.
Proof.
  unfold TestLogGenerator.generate, bind, uniform, ret.
  repeat match goal with
         | |- context [rs_random ?g] => destruct (rs_random g)
         end.
  eexists _, _. split; [reflexivity |]. split; reflexivity.
Qed.

Lemma pitch_amplitude (a : R) : -15 <= sin a * 15 <= 15.
Proof. pose proof (SIN_bound a). lra. Qed.

Lemma generate_polls_spec (times : list R) :
  forall (gen : TestLogGenerator.t) (g : G),
  exists outs g',
    generate_polls times gen g = Ok (outs, g') /\
    map TestLogGenerator.f_altitude outs =
      map (fun k => TestLogGenerator.altitude gen + 10 * INR (S k))
          (seq 0 (List.length times)) /\
    Forall (fun o => TestLogGenerator.altitude gen < TestLogGenerator.f_altitude o) outs /\
    StronglySorted Rlt (map TestLogGenerator.f_altitude outs) /\
    Forall (fun o => -15 <= TestLogGenerator.f_pitch o <= 15) outs.
Proof.
  induction times as [| now rest IH]; intros gen g.
  - exists [], g. simpl. repeat split; constructor.
  - cbn [generate_polls]. unfold bind at 1.
    destruct (generate_returns gen now g) as (f & g1 & -> & Ha & Hp).
    cbn [fst snd]. unfold bind at 1.
    destruct (IH (TestLogGenerator.mk (TestLogGenerator.time_start gen)
                    (TestLogGenerator.altitude gen + 10)
                    (sin ((now - TestLogGenerator.time_start gen) * (5 / 10)) * 15)) g1)
      as (outs & g2 & -> & Halt & Hgt & Hsorted & Hpitch).
    cbn [TestLogGenerator.altitude] in Halt, Hgt.
    exists (f :: outs), g2. split; [reflexivity |].
    split; [| split; [| split]].
    + cbn [map List.length seq]. f_equal.
      * rewrite Ha. simpl. lra.
      * rewrite Halt, <- seq_shift, map_map. apply map_ext.
        intros k. rewrite (S_INR (S k)). lra.
    + constructor; [lra |].
      eapply Forall_impl; [| exact Hgt]. simpl. intros o Ho. lra.
    + cbn [map]. constructor; [exact Hsorted |].
      apply Forall_map. eapply Forall_impl; [| exact Hgt].
      simpl. intros o Ho. lra.
    + constructor; [| exact Hpitch]. rewrite Hp. apply pitch_amplitude.
Qed.

End GeneratorFacts.

(** C8: for every generator state, every number of polls and whatever the
    clock reads at each poll, the polls return; the k-th generated altitude
    is the starting altitude plus [10 * k], so the altitudes are strictly
    increasing, and every generated pitch lies in [-15, 15]. *)
Theorem C8_generator_altitude_and_pitch {G : Type} `{RandomSource G}
    (gen : TestLogGenerator.t) (times : list R) (g : G) :
  exists outs g',
    generate_polls times gen g = Ok (outs, g') /\
    List.length outs = List.length times /\
    map TestLogGenerator.f_altitude outs =
      map (fun k => TestLogGenerator.altitude gen + 10 * INR (S k))
          (seq 0 (List.length times)) /\
    StronglySorted Rlt (map TestLogGenerator.f_altitude outs) /\
    Forall (fun o => -15 <= TestLogGenerator.f_pitch o <= 15) outs.
Proof.
  destruct (generate_polls_spec times gen g)
    as (outs & g' & Hrun & Halt & _ & Hsorted & Hpitch).
  exists outs, g'. split; [exact Hrun |].
  split; [| auto].
  rewrite <- (length_map TestLogGenerator.f_altitude outs), Halt, length_map.
  apply length_seq.
Qed.

(** ** str.strip *)

Lemma lstrip_starts_clean (s : string) : starts_clean (lstrip s).
Proof.
  induction s as [| c s IH]; simpl; [exact I |].
  destruct (is_space c) eqn:E; [exact IH | exact E].
Qed.

Lemma lstrip_clean (s : string) : starts_clean s -> lstrip s = s.
Proof.
  destruct s as [| c s]; simpl; [reflexivity |]. now intros ->.
Qed.

Lemma rstrip_starts_clean (s : string) : starts_clean s -> starts_clean (rstrip s).
Proof.
  destruct s as [| c s]; simpl; [auto |]. intros E.
  destruct (rstrip s); [rewrite E |]; exact E.
Qed.

Lemma rstrip_idempotent (s : string) : rstrip (rstrip s) = rstrip s.
Proof.
  induction s as [| c s IH]; simpl; [reflexivity |].
  destruct (rstrip s) as [| a r] eqn:Er.
  - destruct (is_space c) eqn:E; simpl; [reflexivity | now rewrite E].
  - cbn [rstrip]. cbn [rstrip] in IH. rewrite IH. reflexivity.
Qed.

Lemma strip_idempotent (s : string) : strip (strip s) = strip s.
Proof.
  unfold strip.
  rewrite (lstrip_clean (rstrip (lstrip s)))
    by (apply rstrip_starts_clean, lstrip_starts_clean).
  apply rstrip_idempotent.
Qed.

(** ** LogReader.parse_log_line *)

Ltac explode_tokens parts H :=
  do 18 (destruct parts as [| ? parts]; [simpl in H; lia |]).

Ltac split_Forall :=
  repeat match goal with
         | H : Forall _ (_ :: _) |- _ => inversion H; clear H; subst
         | H : Forall _ [] |- _ => clear H
         end.

Ltac run_conversions f :=
  repeat first
    [ reflexivity
    | match goal with
      | |- context [f ?t] => destruct (f t) eqn:?; try congruence; cbn [rbind]
      end ].

Section ParserFacts.
Variable F : Type.
Variable str_to_float : string -> option F.
Variable str_to_int : string -> option Z.

Let parse := LogReader.parse_log_line F str_to_float str_to_int.

Lemma tokens_strip (line : string) : tokens (strip line) = tokens line.
Proof. unfold tokens. now rewrite strip_idempotent. Qed.

Lemma malformed_strip (line : string) :
  malformed F str_to_float str_to_int (strip line) <->
  malformed F str_to_float str_to_int line.
Proof. unfold malformed, float_tokens. now rewrite tokens_strip. Qed.

Lemma parse_short (line : string) :
  (List.length (tokens line) < 18)%nat -> parse line = Ok None.
Proof.
  intros Hlen. unfold parse, LogReader.parse_log_line, LogReader.parse_fields.
  fold (tokens line). apply Nat.ltb_lt in Hlen. now rewrite Hlen.
Qed.

Lemma parse_well_formed (line : string) :
  well_formed F str_to_float str_to_int line ->
  exists d,
    parse line = Ok (Some d) /\
    LogData.timestamp d = nth 0 (tokens line) EmptyString /\
    map Some (float_fields d) = map str_to_float (float_tokens line) /\
    Some (LogData.state d) = str_to_int (nth 17 (tokens line) EmptyString).
Proof.
  unfold well_formed, float_tokens, parse, LogReader.parse_log_line,
    LogReader.parse_fields.
  fold (tokens line). generalize (tokens line) as parts.
  intros parts (Hlen & Hfl & Hint).
  explode_tokens parts Hlen.
  cbn [firstn skipn nth] in *. split_Forall.
  cbn [List.length Nat.ltb Nat.leb LogReader.item nth_error rbind].
  unfold LogReader.float, LogReader.int.
  repeat match goal with
         | |- context [str_to_float ?t] =>
             destruct (str_to_float t) eqn:?; [cbn [rbind] | congruence]
         end.
  destruct (str_to_int _) eqn:?; [cbn [rbind] | congruence].
  eexists. split; [reflexivity |].
  cbn.
  repeat match goal with
         | E : _ = Some _ |- _ => rewrite E; clear E
         end.
  auto.
Qed.

Lemma parse_bad_token (line : string) :
  (18 <= List.length (tokens line))%nat ->
  Exists (fun t => str_to_float t = None) (float_tokens line) \/
  str_to_int (nth 17 (tokens line) EmptyString) = None ->
  parse line = Ok None.
Proof.
  unfold float_tokens, parse, LogReader.parse_log_line, LogReader.parse_fields.
  fold (tokens line). generalize (tokens line) as parts.
  intros parts Hlen Hbad.
  explode_tokens parts Hlen.
  cbn [firstn skipn nth] in Hbad.
  cbn [List.length Nat.ltb Nat.leb LogReader.item nth_error rbind].
  unfold LogReader.float, LogReader.int.
  destruct Hbad as [Hbad | Hbad].
  - repeat match goal with
           | H : Exists _ (_ :: _) |- _ => inversion H; clear H; subst
           | H : Exists _ [] |- _ => inversion H
           end;
    run_conversions str_to_float.
  - run_conversions str_to_float. rewrite Hbad. reflexivity.
Qed.

Lemma parse_malformed (line : string) :
  malformed F str_to_float str_to_int line -> parse line = Ok None.
Proof.
  intros [Hshort | Hbad].
  - now apply parse_short.
  - destruct (Nat.lt_ge_cases (List.length (tokens line)) 18) as [Hs | Hl].
    + now apply parse_short.
    + now apply parse_bad_token.
Qed.

(** [parse_log_line] never raises. *)
Lemma parse_returns (line : string) : exists r, parse line = Ok r.
Proof.
  unfold parse, LogReader.parse_log_line.
  destruct (LogReader.parse_fields F str_to_float str_to_int line) as [r | e] eqn:E.
  - now exists r.
  - revert E. unfold LogReader.parse_fields.
    generalize (split (strip line)) as parts. intros parts.
    destruct (Nat.ltb_spec (List.length parts) 18) as [Hs | Hl]; [discriminate |].
    explode_tokens parts Hl.
    cbn [LogReader.item nth_error rbind].
    unfold LogReader.float, LogReader.int.
    repeat match goal with
           | |- context [str_to_float ?t] =>
               destruct (str_to_float t); cbn [rbind];
               [| intros [= <-]; eexists; reflexivity]
           end.
    destruct (str_to_int _); cbn [rbind]; [discriminate |].
    intros [= <-]. eexists. reflexivity.
Qed.

End ParserFacts.

Lemma example_line_parses :
  LogReader.parse_log_line Q decimal_float decimal_int example_line =
  Ok (Some (LogData.mk "12:00:00.000" 100 1001 (287 # 20) 0 0 0 0 0 0
              (1 # 10) (1 # 10) 15 5 0 0 (41 # 10) 1%Z))%Q.
Proof. vm_compute. reflexivity. Qed.

Lemma example_line_with_extra_tokens :
  LogReader.parse_log_line Q decimal_float decimal_int
    (example_line ++ " 7 trailing tokens")%string =
  LogReader.parse_log_line Q decimal_float decimal_int example_line.
Proof. vm_compute. reflexivity. Qed.

Lemma broken_line_is_no_sample :
  LogReader.parse_log_line Q decimal_float decimal_int broken_line = Ok None.
Proof. vm_compute. reflexivity. Qed.

(** ** LogReader.read_latest_data *)

Section PollFacts.
Variable F : Type.
Variable zero : F.
Variable str_to_float : string -> option F.
Variable str_to_int : string -> option Z.
Context {G : Type} `{RandomSource G}.
Variable format_line : TestLogGenerator.fields -> string.

Let parse := LogReader.parse_log_line F str_to_float str_to_int.
Let poll := LogReader.read_latest_data F str_to_float str_to_int format_line.
Let bad := malformed F str_to_float str_to_int.

Lemma read_file_malformed (rd : LogReader.t F) (lines : list string) (line : string) :
  bad line ->
  LogReader.read_file F str_to_float str_to_int rd (Lines (lines ++ [line])) = Ok rd.
Proof.
  intros Hbad. unfold LogReader.read_file.
  destruct (lines ++ [line]) as [| l ls] eqn:E.
  - now destruct lines.
  - rewrite <- E, last_last.
    rewrite (parse_malformed F str_to_float str_to_int (strip line))
      by (now apply malformed_strip).
    reflexivity.
Qed.

(** A file-backed poll that obtains no sample returns the held sample and
    leaves the reader as it was. *)
Lemma poll_failed_read (rd : LogReader.t F) (now : R) (v : file_view) (g : G) :
  LogReader.test_generator rd = None ->
  failed_read F str_to_float str_to_int v ->
  poll rd (mk_env now v) g = Ok ((LogReader.current_data rd, rd), g).
Proof.
  intros Hgen Hv. unfold poll, LogReader.read_latest_data. rewrite Hgen.
  destruct (LogReader.truthy (LogReader.log_file_path rd)); cbn [andb env_file];
    [| reflexivity].
  destruct Hv as [| e | | lines line Hbad]; cbn [andb]; try reflexivity.
  unfold bind. rewrite read_file_malformed by assumption. reflexivity.
Qed.

(** A generator-backed poll whose generated line is malformed returns the
    held sample; only the generator has advanced. *)
Lemma poll_generated_malformed (rd : LogReader.t F) (gen gen' : TestLogGenerator.t)
    (env : poll_env) (line : string) (g g' : G) :
  LogReader.test_generator rd = Some gen ->
  TestLogGenerator.generate_line format_line gen (env_time env) g = Ok ((line, gen'), g') ->
  bad line ->
  poll rd env g =
    Ok ((LogReader.current_data rd,
         LogReader.mk (LogReader.log_file_path rd) (Some gen') (LogReader.current_data rd)),
        g').
Proof.
  intros Hgen Hline Hbad. unfold poll, LogReader.read_latest_data. rewrite Hgen.
  unfold bind at 1. rewrite Hline. cbn [fst snd].
  unfold bind at 1, lift.
  rewrite (parse_malformed F str_to_float str_to_int line Hbad).
  reflexivity.
Qed.

Lemma init_file_backed (c : ascii) (path : string) (now : R) :
  LogReader.init F zero (Some (String c path)) now =
  LogReader.mk (Some (String c path)) None (LogData.init zero).
Proof. reflexivity. Qed.

Lemma poll_all_failed (envs : list poll_env) (rd : LogReader.t F) (g : G) :
  LogReader.test_generator rd = None ->
  Forall (fun env => failed_read F str_to_float str_to_int (env_file env)) envs ->
  poll_all F str_to_float str_to_int format_line envs rd g =
    Ok ((repeat (LogReader.current_data rd) (List.length envs), rd), g).
Proof.
  intros Hgen. induction 1 as [| env envs Henv _ IH]; [reflexivity |].
  cbn [poll_all]. unfold bind at 1.
  destruct env as [now v]. cbn [env_file] in Henv.
  fold poll. rewrite (poll_failed_read rd now v g Hgen Henv). cbn [fst snd].
  unfold bind at 1. rewrite IH. reflexivity.
Qed.

End PollFacts.

(** ** The telemetry claims *)

Section TelemetryClaims.
Variable F : Type.
Variable zero : F.
Variable str_to_float : string -> option F.
Variable str_to_int : string -> option Z.
Context {G : Type} `{RandomSource G}.
Variable format_line : TestLogGenerator.fields -> string.

Let parse := LogReader.parse_log_line F str_to_float str_to_int.
Let poll := LogReader.read_latest_data F str_to_float str_to_int format_line.

(** Only the first 18 tokens of a line are read. *)
Lemma parse_prefix (a b : string) :
  (18 <= List.length (tokens a))%nat ->
  firstn 18 (tokens b) = firstn 18 (tokens a) ->
  parse b = parse a.
Proof.
  unfold parse, LogReader.parse_log_line, LogReader.parse_fields.
  fold (tokens a). fold (tokens b).
  generalize (tokens a) as pa. generalize (tokens b) as pb.
  intros pb pa Hlen Heq.
  assert (Hlen' : (18 <= List.length pb)%nat).
  { apply (f_equal (@List.length string)) in Heq.
    rewrite !length_firstn in Heq. lia. }
  explode_tokens pa Hlen. explode_tokens pb Hlen'.
  cbn [firstn] in Heq. injection Heq as -> -> -> -> -> -> -> -> -> -> -> -> -> -> -> -> -> ->.
  reflexivity.
Qed.

(** C3: a malformed line (fewer than 18 tokens, or one of tokens 2-17 not
    a float, or token 18 not an integer) makes [parse_log_line] return the
    "no sample" sentinel, with no exception; a poll whose last line is such
    a line, or whose read fails, or whose generated line is such a line,
    returns the sample held before and keeps it held. *)
Theorem C3_malformed_line_keeps_sample (line : string) :
  malformed F str_to_float str_to_int line ->
  parse line = Ok None /\
  (forall (rd : LogReader.t F) (now : R) (lines : list string) (g : G),
     LogReader.test_generator rd = None ->
     poll rd (mk_env now (Lines (lines ++ [line]))) g =
       Ok ((LogReader.current_data rd, rd), g)) /\
  (forall (rd : LogReader.t F) (now : R) (e : exn) (g : G),
     LogReader.test_generator rd = None ->
     poll rd (mk_env now (Unreadable e)) g =
       Ok ((LogReader.current_data rd, rd), g)) /\
  (forall (rd : LogReader.t F) (gen gen' : TestLogGenerator.t) (env : poll_env) (g g' : G),
     LogReader.test_generator rd = Some gen ->
     TestLogGenerator.generate_line format_line gen (env_time env) g =
       Ok ((line, gen'), g') ->
     poll rd env g =
       Ok ((LogReader.current_data rd,
            LogReader.mk (LogReader.log_file_path rd) (Some gen')
                         (LogReader.current_data rd)), g')).
Proof.
  intros Hbad. split; [now apply parse_malformed |].
  split; [| split].
  - intros rd now lines g Hgen. apply poll_failed_read; [exact Hgen |].
    now constructor.
  - intros rd now e g Hgen. apply poll_failed_read; [exact Hgen | constructor].
  - intros rd gen gen' env g g' Hgen Hline.
    now apply (poll_generated_malformed F str_to_float str_to_int format_line
                 rd gen gen' env line g g').
Qed.

(** C4: a line with at least 18 tokens, of which tokens 2-17 are floats
    and token 18 is an integer, parses to a sample whose timestamp is
    token 1 as it stands, whose sixteen float fields are the floats of
    tokens 2-17 in column order and whose state is the integer of token
    18; every line with the same first 18 tokens parses to the same
    sample. *)
Theorem C4_well_formed_line_parses (line : string) :
  well_formed F str_to_float str_to_int line ->
  exists d,
    parse line = Ok (Some d) /\
    LogData.timestamp d = nth 0 (tokens line) EmptyString /\
    map Some (float_fields d) = map str_to_float (float_tokens line) /\
    Some (LogData.state d) = str_to_int (nth 17 (tokens line) EmptyString) /\
    (forall line' : string,
       firstn 18 (tokens line') = firstn 18 (tokens line) ->
       parse line' = Ok (Some d)).
Proof.
  intros Hwf.
  destruct (parse_well_formed F str_to_float str_to_int line Hwf)
    as (d & Hp & Ht & Hf & Hs).
  exists d. repeat (split; [assumption |]).
  intros line' Heq. fold parse in Hp. rewrite <- Hp.
  apply parse_prefix; [apply Hwf | exact Heq].
Qed.

(** C10: a reader built on a non-empty path is file-backed and holds the
    default sample; as long as every poll finds no file, fails to read,
    finds an empty file or a malformed last line, every poll returns that
    default sample: empty timestamp, state 0 and the sixteen float fields
    0.0. *)
Theorem C10_default_sample_until_first_parse
    (c : ascii) (path : string) (now : R) (envs : list poll_env) (g : G) :
  Forall (fun env => failed_read F str_to_float str_to_int (env_file env)) envs ->
  let rd := LogReader.init F zero (Some (String c path)) now in
  LogReader.test_generator rd = None /\
  poll_all F str_to_float str_to_int format_line envs rd g =
    Ok ((repeat (LogData.init zero) (List.length envs), rd), g) /\
  LogData.timestamp (LogData.init zero) = EmptyString /\
  LogData.state (LogData.init zero) = 0%Z /\
  float_fields (LogData.init zero) = repeat zero 16.
Proof.
  intros Henvs rd. split; [reflexivity |].
  split; [| repeat split].
  apply (poll_all_failed F str_to_float str_to_int format_line envs rd g);
    [reflexivity | exact Henvs].
Qed.

End TelemetryClaims.

(** ** The claims on concrete inputs *)

Lemma broken_line_malformed : malformed Q decimal_float decimal_int broken_line.
Proof.
  right. left. apply Exists_exists. exists "five"%string. split.
  - remember (float_tokens broken_line) as ts eqn:E. vm_compute in E. subst ts.
    repeat (first [left; reflexivity | right]).
  - reflexivity.
Qed.

Lemma example_line_well_formed : well_formed Q decimal_float decimal_int example_line.
Proof.
  split; [| split].
  - remember (tokens example_line) as ts eqn:E. vm_compute in E. subst ts.
    simpl. lia.
  - remember (float_tokens example_line) as ts eqn:E. vm_compute in E. subst ts.
    repeat constructor; discriminate.
  - remember (tokens example_line) as ts eqn:E. vm_compute in E. subst ts.
    discriminate.
Qed.

(** C3 at [broken_line], alone and as the last line of a log file. *)
Lemma C3_malformed_line_keeps_sample_witness :
  LogReader.parse_log_line Q decimal_float decimal_int broken_line = Ok None /\
  LogReader.read_latest_data Q decimal_float decimal_int no_format fresh_reader
    (mk_env 1 (Lines [example_line; broken_line])) 0%nat =
  Ok ((LogReader.current_data fresh_reader, fresh_reader), 0%nat).
Proof.
  destruct (C3_malformed_line_keeps_sample Q decimal_float decimal_int
              (G := nat) no_format broken_line broken_line_malformed)
    as (Hparse & Hfile & _).
  split; [exact Hparse |].
  apply (Hfile fresh_reader 1 [example_line] 0%nat). reflexivity.
Defined.

(** C4 at the specification's example line. *)
Lemma C4_well_formed_line_parses_witness :
  exists d,
    LogReader.parse_log_line Q decimal_float decimal_int example_line = Ok (Some d) /\
    LogData.timestamp d = "12:00:00.000"%string /\
    LogData.altitude d = 100%Q /\ LogData.pitch d = 5%Q /\
    LogData.state d = 1%Z.
Proof.
  destruct (C4_well_formed_line_parses Q decimal_float decimal_int example_line
              example_line_well_formed) as (d & Hparse & _).
  exists d. split; [exact Hparse |].
  rewrite example_line_parses in Hparse. injection Hparse as <-.
  repeat split.
Defined.

(** C10 at three failing polls: no file, a read error, a malformed line. *)
Lemma C10_default_sample_until_first_parse_witness :
  poll_all Q decimal_float decimal_int no_format
    [mk_env 1 Absent; mk_env 2 (Unreadable OSError); mk_env 3 (Lines [broken_line])]
    fresh_reader 0%nat =
  Ok ((repeat (LogData.init 0%Q) 3, fresh_reader), 0%nat).
Proof.
  apply (C10_default_sample_until_first_parse Q 0%Q decimal_float decimal_int
           (G := nat) no_format "f"%char "light.log"%string 0
           [mk_env 1 Absent; mk_env 2 (Unreadable OSError); mk_env 3 (Lines [broken_line])]
           0%nat).
  repeat constructor.
  apply (failed_malformed Q decimal_float decimal_int [] broken_line).
  exact broken_line_malformed.
Defined.

(** * Further properties of the code *)

(** ** Particle.update: the fade *)

Lemma py_int_le (x y : R) : x <= y -> (py_int x <= py_int y)%Z.
Proof.
  intros Hxy. destruct (Rle_dec 0 x) as [Hx | Hx].
  - rewrite !py_int_nonneg by lra. now apply Zfloor_le.
  - destruct (Rle_dec 0 y) as [Hy | Hy].
    + pose proof (py_int_sign_nonpos x ltac:(lra)).
      pose proof (py_int_sign_nonneg y Hy). lia.
    + rewrite !py_int_neg by lra. now apply Zceil_le.
Qed.

Lemma ratio_le (a b m : R) : 0 < m -> a <= b -> a / m <= b / m.
Proof.
  intros Hm Hab. unfold Rdiv. apply Rmult_le_compat_r; [| exact Hab].
  left. now apply Rinv_0_lt_compat.
Qed.

Lemma alpha_after_update (p q : Particle.t) (dt : R) :
  Particle.update p dt = Ok q ->
  Particle.alpha q =
    Z.max 0 (py_int (255 * ((Particle.life p - dt) / Particle.max_life p))).
Proof.
  intros Hu. destruct (Particle_update_inv p q dt Hu) as (Hm & _).
  rewrite Particle_update_ok in Hu by assumption. injection Hu as <-.
  reflexivity.
Qed.

(** X1: a particle whose life is within its initial life keeps, after a
    tick of [dt >= 0], an alpha in the range 0..255 of an opacity. *)
Theorem X1_alpha_is_an_opacity (p : Particle.t) (dt : R) :
  0 < Particle.max_life p -> Particle.life p <= Particle.max_life p -> 0 <= dt ->
  exists q, Particle.update p dt = Ok q /\ (0 <= Particle.alpha q <= 255)%Z.
Proof.
  intros Hm Hl Hdt.
  assert (Hne : Particle.max_life p <> 0) by lra.
  eexists. split; [apply (Particle_update_ok p dt Hne) |].
  unfold Particle.alpha. cbn [Particle.color snd]. split; [lia |].
  apply Z.max_lub; [lia |].
  rewrite <- (py_int_IZR 255) at 2. apply py_int_le.
  assert (Hle : Particle.life p - dt <= Particle.max_life p) by lra.
  pose proof (ratio_le _ _ _ Hm Hle) as Hr.
  replace (Particle.max_life p / Particle.max_life p) with 1 in Hr
    by (field; exact Hne).
  lra.
Qed.

(** X1 at [fading_particle] and a tick of 1/2 s. *)
Lemma X1_alpha_is_an_opacity_witness :
  exists q, Particle.update fading_particle (1 / 2) = Ok q /\
            (0 <= Particle.alpha q <= 255)%Z.
Proof.
  apply (X1_alpha_is_an_opacity fading_particle (1 / 2)); simpl; lra.
Defined.

(** X2: a tick that uses up the life of a particle ([life <= dt]) leaves
    it not alive and with alpha exactly 0. *)
Theorem X2_used_up_particle_is_transparent (p : Particle.t) (dt : R) :
  0 < Particle.max_life p -> Particle.life p <= dt ->
  exists q, Particle.update p dt = Ok q /\
            Particle.is_alive q = false /\ Particle.alpha q = 0%Z.
Proof.
  intros Hm Hl.
  assert (Hne : Particle.max_life p <> 0) by lra.
  eexists. split; [apply (Particle_update_ok p dt Hne) |].
  split.
  - apply is_alive_false. simpl. lra.
  - unfold Particle.alpha. cbn [Particle.color snd].
    apply Z.max_l. apply py_int_sign_nonpos.
    assert (Hle : Particle.life p - dt <= 0) by lra.
    pose proof (ratio_le _ _ _ Hm Hle) as Hr.
    replace (0 / Particle.max_life p) with 0 in Hr by (field; exact Hne).
    lra.
Qed.

(** X2 at [fading_particle] and a tick of 2 s. *)
Lemma X2_used_up_particle_is_transparent_witness :
  exists q, Particle.update fading_particle 2 = Ok q /\
            Particle.is_alive q = false /\ Particle.alpha q = 0%Z.
Proof.
  apply (X2_used_up_particle_is_transparent fading_particle 2); simpl; lra.
Defined.

(** X3: alpha never grows from one tick to the next: after a tick [d1]
    and a further tick [d2 >= 0] the alpha is at most what it was after
    [d1], and the life left is the initial one less [d1 + d2]. *)
Theorem X3_alpha_never_grows (p : Particle.t) (d1 d2 : R) :
  0 < Particle.max_life p -> 0 <= d2 ->
  exists q1 q2,
    Particle.update p d1 = Ok q1 /\ Particle.update q1 d2 = Ok q2 /\
    (Particle.alpha q2 <= Particle.alpha q1)%Z /\
    Particle.life q2 = Particle.life p - d1 - d2.
Proof.
  intros Hm Hd.
  assert (Hne : Particle.max_life p <> 0) by lra.
  eexists. eexists. split; [apply (Particle_update_ok p d1 Hne) |].
  split; [apply Particle_update_ok; exact Hne |].
  unfold Particle.alpha. cbn [Particle.color Particle.life Particle.max_life snd].
  split; [| reflexivity].
  apply Z.max_le_compat_l. apply py_int_le.
  assert (Hle : Particle.life p - d1 - d2 <= Particle.life p - d1) by lra.
  pose proof (ratio_le _ _ _ Hm Hle). lra.
Qed.

(** X3 at [fading_particle] and two ticks of 1/4 s. *)
Lemma X3_alpha_never_grows_witness :
  exists q1 q2,
    Particle.update fading_particle (1 / 4) = Ok q1 /\
    Particle.update q1 (1 / 4) = Ok q2 /\
    (Particle.alpha q2 <= Particle.alpha q1)%Z /\
    Particle.life q2 = Particle.life fading_particle - 1 / 4 - 1 / 4.
Proof.
  apply (X3_alpha_never_grows fading_particle (1 / 4) (1 / 4)); simpl; lra.
Defined.

(** ** The emitters: what they build *)

(** The random source of the examples is lawful. *)
Lemma counter_source_lawful : LawfulRandomSource nat.
Proof.
  split.
  - intros n. cbn [rs_random counter_source fst].
    pose proof (Nat.mod_upper_bound n 4 ltac:(lia)) as Hlt.
    apply lt_INR in Hlt. pose proof (pos_INR (n mod 4)) as Hpos.
    change (INR 4) with (1 + 1 + 1 + 1) in Hlt. lra.
  - intros k n Hk. cbn [rs_randbelow counter_source fst].
    now apply Z.mod_pos_bound.
Qed.

#[export] Existing Instance counter_source_lawful.

Ltac draw_lawful :=
  match goal with
  | |- context [rs_random ?g] =>
      let Hu := fresh "Hu" in
      pose proof (random_unit g) as Hu;
      destruct (rs_random g) as [? ?]; cbn [fst] in Hu
  | |- context [rs_randbelow ?n ?g] =>
      let Hk := fresh "Hk" in
      pose proof (randbelow_range n g ltac:(cbn; lia)) as Hk;
      destruct (rs_randbelow n g) as [? ?]; cbn [fst] in Hk
  end.



Section EmitterProducts.
Context {G : Type} `{RandomSource G}.





End EmitterProducts.

Lemma set_exhaust_same (s : ParticleSystem.t) :
  ParticleSystem.set_exhaust s (ParticleSystem.exhaust_particles s) = s.
Proof. now destruct s. Qed.












(** ** The edge intersection *)







(** ** BackgroundRenderer: the colour as a function of altitude *)


Lemma channel_range (lo hi : Z) (ratio : R) :
  (hi <= lo)%Z -> 0 <= ratio <= 1 ->
  (hi <= py_int (IZR lo * (1 - ratio) + IZR hi * ratio) <= lo)%Z.
Proof.
  intros Hhl Hr. apply IZR_le in Hhl.
  split.
  - rewrite <- (py_int_IZR hi) at 1. apply py_int_le. nra.
  - rewrite <- (py_int_IZR lo) at 2. apply py_int_le. nra.
Qed.


(** X10: for every altitude the background colour is a proper RGB
    triple between midnight blue and sky blue, channel by channel
    ([25..135], [25..206], [112..235]), so each of the first three
    [glClearColor] arguments of [apply] lies in [0, 1] and the fourth
    is 1. *)
Theorem X10_background_color_is_rgb (self : BackgroundRenderer.t) (altitude : R) :
  exists r g b,
    BackgroundRenderer.get_color (BackgroundRenderer.update_color self altitude)
      = (r, g, b) /\
    (25 <= r <= 135)%Z /\ (25 <= g <= 206)%Z /\ (112 <= b <= 235)%Z /\
    clear_color (BackgroundRenderer.update_color self altitude)
      = (IZR r / 255, IZR g / 255, IZR b / 255, 1) /\
    0 <= IZR r / 255 <= 1 /\ 0 <= IZR g / 255 <= 1 /\ 0 <= IZR b / 255 <= 1.
Proof.
  pose proof (clamp_altitude_range altitude) as Hc.
  assert (Hr : 0 <= clamp_altitude altitude / 5000 <= 1) by lra.
  pose proof (channel_range 135 25 _ ltac:(lia) Hr) as H1.
  pose proof (channel_range 206 25 _ ltac:(lia) Hr) as H2.
  pose proof (channel_range 235 112 _ ltac:(lia) Hr) as H3.
  eexists _, _, _. split; [reflexivity |].
  fold (clamp_altitude altitude).
  split; [exact H1 |]. split; [exact H2 |]. split; [exact H3 |].
  split; [reflexivity |].
  destruct H1 as [H1a H1b], H2 as [H2a H2b], H3 as [H3a H3b].
  apply IZR_le in H1a, H1b, H2a, H2b, H3a, H3b.
  repeat split; lra.
Qed.



(** ** str.split and str.strip: tokens and surrounding whitespace *)

Lemma has_no_space_app (s : string) (c : ascii) :
  has_no_space s = true -> is_space c = false ->
  has_no_space (s ++ String c EmptyString) = true.
Proof.
  intros Hs Hc. induction s as [| a s IH]; simpl in *.
  - now rewrite Hc.
  - apply andb_true_iff in Hs as [Ha Hs]. rewrite Ha. simpl. now apply IH.
Qed.

Lemma append_not_empty (s : string) (c : ascii) :
  (s ++ String c EmptyString)%string <> EmptyString.
Proof. destruct s; discriminate. Qed.

(** Every token is a non-empty run without whitespace. *)
Lemma split_from_tokens (s tok : string) :
  has_no_space tok = true ->
  Forall (fun t => t <> EmptyString /\ has_no_space t = true) (split_from tok s).
Proof.
  revert tok. induction s as [| c s IH]; intros tok Htok; simpl.
  - destruct tok; constructor; [| constructor]. split; [discriminate | exact Htok].
  - destruct (is_space c) eqn:Hc.
    + destruct tok as [| a tok']; [now apply IH |].
      constructor; [split; [discriminate | exact Htok] | now apply IH].
    + apply IH. now apply has_no_space_app.
Qed.

Lemma rstrip_app_space (s : string) (c : ascii) :
  is_space c = true -> rstrip (s ++ String c EmptyString) = rstrip s.
Proof.
  intros Hc. induction s as [| a s IH]; simpl.
  - now rewrite Hc.
  - now rewrite IH.
Qed.

Lemma lstrip_app_space (s : string) (c : ascii) :
  is_space c = true ->
  lstrip (s ++ String c EmptyString) = (lstrip s ++ String c EmptyString)%string \/
  (lstrip (s ++ String c EmptyString) = EmptyString /\ lstrip s = EmptyString).
Proof.
  intros Hc. induction s as [| a s IH]; simpl.
  - right. now rewrite Hc.
  - destruct (is_space a); [exact IH | now left].
Qed.

Lemma strip_app_space (s : string) (c : ascii) :
  is_space c = true -> strip (s ++ String c EmptyString) = strip s.
Proof.
  intros Hc. unfold strip.
  destruct (lstrip_app_space s c Hc) as [-> | [-> ->]].
  - now apply rstrip_app_space.
  - reflexivity.
Qed.

Lemma strip_cons_space (s : string) (c : ascii) :
  is_space c = true -> strip (String c s) = strip s.
Proof. intros Hc. unfold strip. simpl. now rewrite Hc. Qed.

Lemma split_from_cons (tok : string) (c : ascii) (s : string) :
  split_from tok (String c s) =
  if is_space c then
    match tok with
    | EmptyString => split_from EmptyString s
    | _ => tok :: split_from EmptyString s
    end
  else split_from (tok ++ String c EmptyString) s.
Proof. reflexivity. Qed.

Lemma split_from_rstrip (s tok : string) :
  split_from tok (rstrip s) = split_from tok s.
Proof.
  revert tok. induction s as [| c s IH]; intros tok; [reflexivity |].
  cbn [rstrip]. rewrite (split_from_cons tok c s).
  destruct (rstrip s) as [| a r] eqn:Er.
  - destruct (is_space c) eqn:Hc.
    + rewrite <- (IH EmptyString). now destruct tok.
    + rewrite split_from_cons, Hc. apply IH.
  - rewrite split_from_cons. destruct (is_space c).
    + now rewrite (IH EmptyString).
    + apply IH.
Qed.

Lemma split_lstrip (s : string) : split (lstrip s) = split s.
Proof.
  unfold split. induction s as [| c s IH]; [reflexivity |].
  simpl. destruct (is_space c) eqn:Hc; [exact IH |].
  simpl. now rewrite Hc.
Qed.

(** Stripping a line first does not change its tokens. *)
Lemma split_strip (s : string) : split (strip s) = split s.
Proof.
  unfold strip, split. rewrite split_from_rstrip. apply split_lstrip.
Qed.

Lemma Forall_or_Exists_none {A B : Type} (f : A -> option B) (l : list A) :
  Forall (fun t => f t <> None) l \/ Exists (fun t => f t = None) l.
Proof.
  induction l as [| a l [IH | IH]].
  - left. constructor.
  - destruct (f a) eqn:E.
    + left. constructor; [congruence | exact IH].
    + right. now constructor.
  - right. now constructor 2.
Qed.

Section ParserExtras.
Variable F : Type.
Variable str_to_float : string -> option F.
Variable str_to_int : string -> option Z.

Let parse := LogReader.parse_log_line F str_to_float str_to_int.

Lemma well_formed_or_malformed (line : string) :
  well_formed F str_to_float str_to_int line \/
  malformed F str_to_float str_to_int line.
Proof.
  unfold well_formed, malformed.
  destruct (Nat.lt_ge_cases (List.length (tokens line)) 18) as [Hs | Hl]; [now right; left |].
  destruct (Forall_or_Exists_none str_to_float (float_tokens line)) as [Hf | Hf];
    [| now right; right; left].
  destruct (str_to_int (nth 17 (tokens line) EmptyString)) eqn:Hi.
  - left. repeat split; [exact Hl | exact Hf | congruence].
  - right. right. now right.
Qed.

(** X12: every line is either well formed, and then [parse_log_line]
    returns a sample, or malformed, and then it returns the "no sample"
    sentinel; it never raises. *)
Theorem X12_every_line_is_classified (line : string) :
  (well_formed F str_to_float str_to_int line /\
   exists d, parse line = Ok (Some d)) \/
  (malformed F str_to_float str_to_int line /\ parse line = Ok None).
Proof.
  destruct (well_formed_or_malformed line) as [Hwf | Hbad].
  - left. split; [exact Hwf |].
    destruct (parse_well_formed F str_to_float str_to_int line Hwf) as (d & Hp & _).
    now exists d.
  - right. split; [exact Hbad |]. now apply parse_malformed.
Qed.

Lemma parse_some_well_formed (line : string) (d : LogData.t F) :
  parse line = Ok (Some d) ->
  well_formed F str_to_float str_to_int line /\
  LogData.timestamp d = nth 0 (tokens line) EmptyString.
Proof.
  intros Hp. destruct (well_formed_or_malformed line) as [Hwf | Hbad].
  - split; [exact Hwf |].
    destruct (parse_well_formed F str_to_float str_to_int line Hwf)
      as (d' & Hp' & Ht & _).
    fold parse in Hp'. rewrite Hp in Hp'. now injection Hp' as ->.
  - pose proof (parse_malformed F str_to_float str_to_int line Hbad) as Hn.
    fold parse in Hn. congruence.
Qed.

(** X13: the timestamp of every parsed sample is the first
    whitespace-separated token of the line: it is not empty and holds no
    whitespace character. *)
Theorem X13_timestamp_is_a_token (line : string) (d : LogData.t F) :
  parse line = Ok (Some d) ->
  LogData.timestamp d = nth 0 (split line) EmptyString /\
  LogData.timestamp d <> EmptyString /\
  has_no_space (LogData.timestamp d) = true.
Proof.
  intros Hp. destruct (parse_some_well_formed line d Hp) as ((Hlen & _) & Ht).
  pose proof (split_from_tokens (strip line) EmptyString eq_refl) as Hall.
  fold (split (strip line)) in Hall. fold (tokens line) in Hall.
  assert (Hin : In (nth 0 (tokens line) EmptyString) (tokens line))
    by (apply nth_In; lia).
  rewrite Forall_forall in Hall. destruct (Hall _ Hin) as [Hne Hclean].
  rewrite Ht. split; [| split; assumption].
  unfold tokens. now rewrite split_strip.
Qed.

(** X14: whitespace around a line does not matter: a line parses to the
    same result with a whitespace character (such as the newline that
    [readlines] keeps) put in front of it or after it, and stripped. *)
Theorem X14_surrounding_whitespace_is_ignored (line : string) (c : ascii) :
  is_space c = true ->
  parse (String c line) = parse line /\
  parse (line ++ String c EmptyString)%string = parse line /\
  parse (strip line) = parse line.
Proof.
  intros Hc. unfold parse, LogReader.parse_log_line, LogReader.parse_fields.
  rewrite (strip_cons_space line c Hc), (strip_app_space line c Hc), strip_idempotent.
  repeat split.
Qed.

End ParserExtras.

(** X13 at the specification's example line. *)
Lemma X13_timestamp_is_a_token_witness :
  exists d,
    LogReader.parse_log_line Q decimal_float decimal_int example_line = Ok (Some d) /\
    LogData.timestamp d = nth 0 (split example_line) EmptyString /\
    LogData.timestamp d <> EmptyString /\
    has_no_space (LogData.timestamp d) = true.
Proof.
  eexists. split; [apply example_line_parses |].
  apply (X13_timestamp_is_a_token Q decimal_float decimal_int example_line).
  apply example_line_parses.
Defined.

(** X14 at the example line and the newline character. *)
Lemma X14_surrounding_whitespace_is_ignored_witness :
  LogReader.parse_log_line Q decimal_float decimal_int (String "010"%char example_line) =
    LogReader.parse_log_line Q decimal_float decimal_int example_line /\
  LogReader.parse_log_line Q decimal_float decimal_int
    (example_line ++ String "010"%char EmptyString)%string =
    LogReader.parse_log_line Q decimal_float decimal_int example_line /\
  LogReader.parse_log_line Q decimal_float decimal_int (strip example_line) =
    LogReader.parse_log_line Q decimal_float decimal_int example_line.
Proof.
  apply (X14_surrounding_whitespace_is_ignored Q decimal_float decimal_int
           example_line "010"%char).
  reflexivity.
Defined.

(** ** LogReader.read_latest_data: every poll *)

Section PollExtras.
Variable F : Type.
Variable str_to_float : string -> option F.
Variable str_to_int : string -> option Z.
Context {G : Type} `{RandomSource G}.
Variable format_line : TestLogGenerator.fields -> string.

Let parse := LogReader.parse_log_line F str_to_float str_to_int.
Let poll := LogReader.read_latest_data F str_to_float str_to_int format_line.

Lemma store_keeps (rd : LogReader.t F) (data : option (LogData.t F)) :
  LogReader.log_file_path (LogReader.store F rd data) = LogReader.log_file_path rd /\
  LogReader.test_generator (LogReader.store F rd data) = LogReader.test_generator rd.
Proof. destruct data; split; reflexivity. Qed.

Lemma read_file_returns (rd : LogReader.t F) (v : file_view) :
  exists rd',
    LogReader.try_except_exception
      (LogReader.read_file F str_to_float str_to_int rd v) rd = Ok rd' /\
    LogReader.log_file_path rd' = LogReader.log_file_path rd /\
    LogReader.test_generator rd' = LogReader.test_generator rd.
Proof.
  destruct v as [| e | lines]; cbn [LogReader.read_file LogReader.try_except_exception].
  - now exists rd.
  - now exists rd.
  - destruct lines as [| l ls]; [now exists rd |].
    destruct (parse_returns F str_to_float str_to_int (strip (last (l :: ls) EmptyString)))
      as [r Hr].
    rewrite Hr. cbn [rbind LogReader.try_except_exception].
    eexists. split; [reflexivity | apply store_keeps].
Qed.

Lemma generate_line_returns (gen : TestLogGenerator.t) (now : R) (g : G) :
  exists line gen' g',
    TestLogGenerator.generate_line format_line gen now g = Ok ((line, gen'), g').
Proof.
  unfold TestLogGenerator.generate_line, bind.
  destruct (generate_returns gen now g) as (f & g' & -> & _).
  eexists _, _, _. reflexivity.
Qed.

Lemma poll_returns (rd : LogReader.t F) (env : poll_env) (g : G) :
  exists rd' g',
    poll rd env g = Ok ((LogReader.current_data rd', rd'), g') /\
    LogReader.log_file_path rd' = LogReader.log_file_path rd /\
    file_backed rd' = file_backed rd.
Proof.
  unfold poll, LogReader.read_latest_data, file_backed.
  destruct (LogReader.test_generator rd) as [gen |] eqn:Hgen.
  - unfold bind at 1.
    destruct (generate_line_returns gen (env_time env) g) as (line & gen' & g' & ->).
    cbn [fst snd]. unfold bind at 1, lift.
    destruct (parse_returns F str_to_float str_to_int line) as [r ->].
    unfold ret. eexists _, _. split; [reflexivity |].
    destruct r; split; reflexivity.
  - destruct (LogReader.truthy (LogReader.log_file_path rd)
              && match env_file env with Absent => false | _ => true end).
    + unfold bind, lift.
      destruct (read_file_returns rd (env_file env)) as (rd' & -> & Hpath & Hmode).
      unfold ret. exists rd', g. split; [reflexivity |].
      split; [exact Hpath |]. now rewrite Hmode, Hgen.
    + unfold ret. exists rd, g. split; [reflexivity |].
      split; [reflexivity |]. now rewrite Hgen.
Qed.

(** X15: a poll never raises, whatever the file system shows and
    whatever line is generated; the sample it returns is the one the
    reader holds afterwards, and the reader keeps its path and its mode
    (file-backed or generator-backed). *)
Theorem X15_poll_always_returns (rd : LogReader.t F) (env : poll_env) (g : G) :
  exists rd' g',
    poll rd env g = Ok ((LogReader.current_data rd', rd'), g') /\
    LogReader.log_file_path rd' = LogReader.log_file_path rd /\
    file_backed rd' = file_backed rd.
Proof. apply poll_returns. Qed.

Lemma parse_strip (line : string) : parse (strip line) = parse line.
Proof.
  unfold parse, LogReader.parse_log_line, LogReader.parse_fields.
  now rewrite strip_idempotent.
Qed.

Lemma poll_good_line (rd : LogReader.t F) (now : R) (lines : list string)
    (line : string) (d : LogData.t F) (g : G) :
  LogReader.test_generator rd = None ->
  LogReader.truthy (LogReader.log_file_path rd) = true ->
  parse line = Ok (Some d) ->
  poll rd (mk_env now (Lines (lines ++ [line]))) g =
    Ok ((d, LogReader.mk (LogReader.log_file_path rd) None d), g).
Proof.
  intros Hgen Hpath Hline. unfold poll, LogReader.read_latest_data.
  rewrite Hgen, Hpath. cbn [andb env_file]. unfold bind, lift.
  unfold LogReader.read_file.
  destruct (lines ++ [line]) as [| l ls] eqn:E; [now destruct lines |].
  rewrite <- E, last_last. fold parse. rewrite parse_strip, Hline.
  cbn [rbind LogReader.store LogReader.try_except_exception]. unfold ret.
  cbn [LogReader.current_data]. now rewrite Hgen.
Qed.

(** X16: on a file-backed reader a poll whose last line parses to a
    sample [d] returns [d] and holds it, whatever was held before; every
    later poll that finds no file, fails to read, finds an empty file or a
    malformed last line still returns [d]. *)
Theorem X16_last_good_sample_is_kept (rd : LogReader.t F) (now : R)
    (lines : list string) (line : string) (d : LogData.t F)
    (envs : list poll_env) (g : G) :
  LogReader.test_generator rd = None ->
  LogReader.truthy (LogReader.log_file_path rd) = true ->
  parse line = Ok (Some d) ->
  Forall (fun env => failed_read F str_to_float str_to_int (env_file env)) envs ->
  poll_all F str_to_float str_to_int format_line
    (mk_env now (Lines (lines ++ [line])) :: envs) rd g =
  Ok ((d :: repeat d (List.length envs),
       LogReader.mk (LogReader.log_file_path rd) None d), g).
Proof.
  intros Hgen Hpath Hline Henvs. cbn [poll_all]. unfold bind at 1.
  fold poll. rewrite (poll_good_line rd now lines line d g Hgen Hpath Hline).
  cbn [fst snd]. unfold bind at 1.
  rewrite (poll_all_failed F str_to_float str_to_int format_line envs
             (LogReader.mk (LogReader.log_file_path rd) None d) g eq_refl Henvs).
  reflexivity.
Qed.

End PollExtras.

(** X16 on the reader of the examples: a good line, then a missing file
    and a broken line. *)
Lemma X16_last_good_sample_is_kept_witness :
  exists d,
    poll_all Q decimal_float decimal_int no_format
      [mk_env 1 (Lines [broken_line; example_line]);
       mk_env 2 Absent; mk_env 3 (Lines [broken_line])]
      fresh_reader 0%nat =
    Ok (([d; d; d], LogReader.mk (Some "flight.log"%string) None d), 0%nat) /\
    LogData.altitude d = 100%Q.
Proof.
  eexists. split.
  - apply (X16_last_good_sample_is_kept Q decimal_float decimal_int (G := nat)
             no_format fresh_reader 1 [broken_line] example_line _
             [mk_env 2 Absent; mk_env 3 (Lines [broken_line])] 0%nat).
    + reflexivity.
    + reflexivity.
    + apply example_line_parses.
    + repeat constructor.
      apply (failed_malformed Q decimal_float decimal_int [] broken_line).
      exact broken_line_malformed.
  - reflexivity.
Defined.

(** ** TestLogGenerator: the values of one line *)

Lemma norm_between (ax ay az : R) :
  - (1 / 2) <= ax <= 1 / 2 -> - (1 / 2) <= ay <= 1 / 2 ->
  1481 / 100 <= az <= 2481 / 100 ->
  14 + 81 / 100 <= ParticleSystem.magnitude ax ay az < 25.
Proof.
  intros Hx Hy Hz. unfold ParticleSystem.magnitude.
  set (S := ax ^ 2 + ay ^ 2 + az ^ 2).
  assert (HS : 0 <= S) by (subst S; nra).
  pose proof (sqrt_pos S) as Hpos. pose proof (sqrt_sqrt S HS) as Hsq.
  assert (Hlo : (1481 / 100) * (1481 / 100) <= S) by (subst S; nra).
  assert (Hhi : S < 25 * 25) by (subst S; nra).
  split; nra.
Qed.

(** X17: with a lawful random source one call of the generator adds 10 to
    the altitude, keeps its start time, and computes a pressure
    [1013.25 - 0.12 * altitude], a temperature [15 - 0.0065 * altitude], a
    vertical acceleration in [14.81, 24.81] and lateral ones in
    [-0.5, 0.5]; for such an acceleration the exhaust emitter's count
    [floor(2 * norm)] lies between 29 and 49. *)
Theorem X17_generated_values {G : Type} `{LawfulRandomSource G}
    (gen : TestLogGenerator.t) (now : R) (g : G) :
  exists f gen' g',
    TestLogGenerator.generate gen now g = Ok ((f, gen'), g') /\
    TestLogGenerator.f_altitude f = TestLogGenerator.altitude gen + 10 /\
    TestLogGenerator.altitude gen' = TestLogGenerator.f_altitude f /\
    TestLogGenerator.pitch gen' = TestLogGenerator.f_pitch f /\
    TestLogGenerator.time_start gen' = TestLogGenerator.time_start gen /\
    TestLogGenerator.f_pressure f =
      101325 / 100 - 12 / 100 * TestLogGenerator.f_altitude f /\
    TestLogGenerator.f_temperature f =
      15 - 65 / 10000 * TestLogGenerator.f_altitude f /\
    1481 / 100 <= TestLogGenerator.f_accel_z f <= 2481 / 100 /\
    - (1 / 2) <= TestLogGenerator.f_accel_x f <= 1 / 2 /\
    - (1 / 2) <= TestLogGenerator.f_accel_y f <= 1 / 2 /\
    (29 <= Zfloor (2 * sqrt (TestLogGenerator.f_accel_x f ^ 2 +
                             TestLogGenerator.f_accel_y f ^ 2 +
                             TestLogGenerator.f_accel_z f ^ 2)) <= 49)%Z.
Proof.
  unfold TestLogGenerator.generate, bind, uniform, ret.
  repeat draw_lawful.
  eexists _, _, _. split; [reflexivity |].
  cbn [TestLogGenerator.f_altitude TestLogGenerator.f_pressure
       TestLogGenerator.f_temperature TestLogGenerator.f_accel_x
       TestLogGenerator.f_accel_y TestLogGenerator.f_accel_z
       TestLogGenerator.f_pitch TestLogGenerator.altitude
       TestLogGenerator.pitch TestLogGenerator.time_start].
  assert (Hz : 1481 / 100 <= 981 / 100 + (5 + (15 - 5) * r) <= 2481 / 100) by lra.
  assert (Hx : - (1 / 2) <= - (5 / 10) + (5 / 10 - - (5 / 10)) * r0 <= 1 / 2) by lra.
  assert (Hy : - (1 / 2) <= - (5 / 10) + (5 / 10 - - (5 / 10)) * r1 <= 1 / 2) by lra.
  repeat (split; [first [reflexivity | lra | assumption] |]).
  pose proof (norm_between _ _ _ Hx Hy Hz) as Hn.
  unfold ParticleSystem.magnitude in Hn.
  split.
  - apply Zfloor_lub. lra.
  - apply Z.lt_succ_r. change (Z.succ 49) with 50%Z. apply lt_IZR.
    match goal with |- IZR (Zfloor ?x) < _ => pose proof (Zfloor_bound x) end.
    lra.
Qed.

(** X17 on a fresh generator. *)
Lemma X17_generated_values_witness :
  exists f gen' g',
    TestLogGenerator.generate (TestLogGenerator.init 0) 1 0%nat = Ok ((f, gen'), g') /\
    TestLogGenerator.f_altitude f = 10 /\
    1481 / 100 <= TestLogGenerator.f_accel_z f <= 2481 / 100.
Proof.
  destruct (X17_generated_values (G := nat) (TestLogGenerator.init 0) 1 0%nat)
    as (f & gen' & g' & Hgen & Halt & _ & _ & _ & _ & _ & Hz & _).
  exists f, gen', g'. split; [exact Hgen |]. split; [| exact Hz].
  rewrite Halt. simpl. lra.
Defined.

(** ** app.py: the frame and the run of the application *)

Section EngineInvariant.
Context {G : Type} `{RandomSource G}.






End EngineInvariant.

Section AppExtras.
Variable str_to_float : string -> option R.
Variable str_to_int : string -> option Z.
Context {G : Type} `{RandomSource G}.
Variable format_line : TestLogGenerator.fields -> string.

Let run := RocketVisualizerApp.run str_to_float str_to_int format_line.
Let tick := RocketVisualizerApp.read_log_data str_to_float str_to_int format_line.

Lemma tick_returns (app : RocketVisualizerApp.t) (env : poll_env) (g : G) :
  exists rd d g',
    tick app env g =
      Ok (RocketVisualizerApp.mk
            (RocketVisualizerApp.width app) (RocketVisualizerApp.height app) rd
            (RocketVisualizerApp.particle_system app)
            (RocketVisualizerApp.rocket_renderer app)
            (RocketVisualizerApp.background_renderer app) d, g') /\
    d = LogReader.current_data rd.
Proof.
  unfold tick, RocketVisualizerApp.read_log_data, bind.
  destruct (poll_returns R str_to_float str_to_int format_line
              (RocketVisualizerApp.log_reader app) env g) as (rd & g' & -> & _).
  unfold ret. cbn [fst snd]. eexists _, _, _. split; reflexivity.
Qed.



(** X20: the application of [app.py] builds its particle system with
    the effects flag at its default, off; so whatever frames and log ticks
    follow, the run returns and both particle populations stay empty. *)
Theorem X20_app_never_holds_a_particle (log_file_path : option string)
    (width height : Z) (assets_loaded : bool) (now : R)
    (events : list event) (g : G) :
  exists app' g',
    run events (RocketVisualizerApp.init log_file_path width height assets_loaded now) g
      = Ok (app', g') /\
    RocketVisualizerApp.particle_system app' = ParticleSystem.init width height false /\
    ParticleSystem.snapshot (RocketVisualizerApp.particle_system app') = ([], []).
Proof.
  assert (Hinv : forall evs app g,
            RocketVisualizerApp.particle_system app =
              ParticleSystem.init width height false ->
            exists app' g',
              run evs app g = Ok (app', g') /\
              RocketVisualizerApp.particle_system app' =
                ParticleSystem.init width height false).
  { induction evs as [| e evs IH]; intros app g0 Hps.
    - exists app, g0. split; [reflexivity | exact Hps].
    - destruct e as [dt | env]; cbn [run RocketVisualizerApp.run]; unfold bind.
      + unfold RocketVisualizerApp.update. rewrite Hps. cbn. apply IH. reflexivity.
      + destruct (tick_returns app env g0) as (rd & d & g' & Ht & _).
        unfold tick in Ht. rewrite Ht. apply IH. exact Hps. }
  destruct (Hinv events
              (RocketVisualizerApp.init log_file_path width height assets_loaded now) g
              eq_refl) as (app' & g' & Hrun & Hps).
  exists app', g'. split; [exact Hrun |]. split; [exact Hps |]. now rewrite Hps.
Qed.

End AppExtras.




(** ** rocket_visualizer.py: the dust emitter *)

Section BorderDust.
Context {G : Type} `{LawfulRandomSource G}.






End BorderDust.


